(* ===================================================================== *)
(*  confluent_kafka.avro.serializer.message_serializer                    *)
(*                                                                       *)
(*  A shallow embedding of MessageSerializer: the wire envelope           *)
(*  (magic byte + big-endian schema id + Avro body), the two per-id       *)
(*  caches (id_to_writers, id_to_decoder_func) and the decoder            *)
(*  resolution with its fastavro trial.                                   *)
(*                                                                       *)
(*  The schema registry client, avro and fastavro are collaborators:      *)
(*  they are taken as an interface (class Collaborators) and every        *)
(*  theorem holds for all of its instances.                               *)
(* ===================================================================== *)

From Stdlib Require Import ZArith List Lia DecimalString.
From Stdlib.Strings Require Import Byte.
From stdpp Require Import gmap strings.
Import ListNotations.

Local Open Scope string_scope.
Local Open Scope Z_scope.

(* --------------------------------------------------------------------- *)
(* Python exceptions and results                                          *)
(* --------------------------------------------------------------------- *)

(** The exception classes the module raises or lets through.  All of them
    derive from [Exception]; [KeySerializerError] and
    [ValueSerializerError] derive from [SerializerError].  An exception
    that is not an [Exception] (KeyboardInterrupt, SystemExit) is an
    asynchronous signal and outside this model. *)
Inductive Exception : Type :=
| SerializerError (msg : string)
| KeySerializerError (msg : string)
| ValueSerializerError (msg : string)
| ClientError (msg : string)
| StructError (msg : string)
| TypeError (msg : string)
| AttributeError (msg : string)
| OtherError (msg : string).

(** [isinstance(e, ClientError)], the test of [except ClientError]. *)
Definition is_ClientError (e : Exception) : bool :=
  match e with
  | ClientError _ => true
  | _ => false
  end.

(** [str(e)]. *)
Definition str_of_exception (e : Exception) : string :=
  match e with
  | SerializerError m | KeySerializerError m | ValueSerializerError m
  | ClientError m | StructError m | TypeError m | AttributeError m
  | OtherError m => m
  end.

Inductive Result (A : Type) : Type :=
| Ok (a : A)
| Raise (e : Exception).
Arguments Ok {A} a.
Arguments Raise {A} e.

Definition is_Ok {A} (r : Result A) : bool :=
  match r with Ok _ => true | Raise _ => false end.

(* --------------------------------------------------------------------- *)
(* bytes, struct.pack / struct.unpack, io.BytesIO                         *)
(* --------------------------------------------------------------------- *)

Abbreviation bytes := (list byte).

Definition MAGIC_BYTE : Z := 0.

(** The byte whose unsigned value is [n mod 256]. *)
Definition byte_of_Z (n : Z) : byte :=
  match Byte.of_N (Z.to_N (n mod 256)) with
  | Some b => b
  | None => x00
  end.

Definition Z_of_byte (b : byte) : Z := Z.of_N (Byte.to_N b).

(** [struct.pack('b', n)]: one signed byte, [struct.error] out of range. *)
Definition struct_pack_b (n : Z) : Result bytes :=
  if (-128 <=? n) && (n <=? 127)
  then Ok [byte_of_Z n]
  else Raise (StructError "byte format requires -128 <= number <= 127").

(** [struct.pack('>I', n)]: four bytes, most significant first,
    [struct.error] when [n] is not an unsigned 32-bit integer.  CPython
    first converts [n] to a C unsigned long (64 bits), which fails for a
    negative [n] and from 2^64 on, and then checks the range of the
    format. *)
Definition struct_pack_I (n : Z) : Result bytes :=
  if (0 <=? n) && (n <? 2 ^ 32)
  then Ok [byte_of_Z (Z.shiftr n 24); byte_of_Z (Z.shiftr n 16);
           byte_of_Z (Z.shiftr n 8); byte_of_Z n]
  else if (2 ^ 32 <=? n) && (n <? 2 ^ 64)
  then Raise (StructError "'I' format requires 0 <= number <= 4294967295")
  else Raise (StructError "argument out of range").

(** [struct.unpack('>bI', data)]: a signed byte and a big-endian unsigned
    32-bit integer; [struct.error] unless [data] has exactly 5 bytes. *)
Definition struct_unpack_bI (data : bytes) : Result (Z * Z) :=
  match data with
  | [m; b3; b2; b1; b0] =>
      let u := Z_of_byte m in
      Ok (if u <? 128 then u else u - 256,
          Z.lor (Z.shiftl (Z_of_byte b3) 24)
            (Z.lor (Z.shiftl (Z_of_byte b2) 16)
               (Z.lor (Z.shiftl (Z_of_byte b1) 8) (Z_of_byte b0))))
  | _ => Raise (StructError "unpack requires a buffer of 5 bytes")
  end.

(** The unsigned value of a byte string read most significant byte
    first. *)
Definition big_endian (bs : bytes) : Z :=
  fold_left (fun acc b => 256 * acc + Z_of_byte b) bs 0.

(** [ContextStringIO] is an [io.BytesIO]: a buffer and a cursor. *)
Record BytesIO : Type := mkBytesIO {
  getvalue : bytes;
  tell : nat
}.

(** [io.read(n)]: at most [n] bytes from the cursor, which advances by
    what was read. *)
Definition bytesio_read (f : BytesIO) (n : nat) : bytes * BytesIO :=
  let data := firstn n (skipn (tell f) (getvalue f)) in
  (data, mkBytesIO (getvalue f) (tell f + length data)%nat).

(** [io.seek(pos)]. *)
Definition bytesio_seek (f : BytesIO) (pos : nat) : BytesIO :=
  mkBytesIO (getvalue f) pos.

(** The bytes a reader positioned at the cursor still has before it. *)
Definition remaining (f : BytesIO) : bytes := skipn (tell f) (getvalue f).

(** ['%d' % n]. *)
Definition percent_d (n : Z) : string := NilZero.string_of_int (Z.to_int n).

(* --------------------------------------------------------------------- *)
(* A state-and-exception monad                                            *)
(* --------------------------------------------------------------------- *)

(** A method body: it reads and updates the objects it holds ([S]) and
    either returns or raises.  What was mutated before a [raise] stays
    mutated, as in Python. *)
Definition M (S A : Type) : Type := S -> Result A * S.

Definition ret {S A} (a : A) : M S A := fun s => (Ok a, s).

Definition raise {S A} (e : Exception) : M S A := fun s => (Raise e, s).

Definition bind {S A B} (m : M S A) (k : A -> M S B) : M S B :=
  fun s =>
    match m s with
    | (Ok a, s') => k a s'
    | (Raise e, s') => (Raise e, s')
    end.

Notation "x <- m ;; k" := (bind m (fun x => k))
  (at level 100, m at next level, right associativity).
Notation "m ;;; k" := (bind m (fun _ => k))
  (at level 100, right associativity).

Definition gets {S A} (f : S -> A) : M S A := fun s => (Ok (f s), s).

Definition modify {S} (f : S -> S) : M S unit := fun s => (Ok tt, f s).

(** A pure computation that may raise. *)
Definition lift {S A} (r : Result A) : M S A := fun s => (r, s).

(** [try: body / except C as e: handler(e)], [catches] being
    [isinstance(e, C)]. *)
Definition try_except {S A} (body : M S A) (catches : Exception -> bool)
    (handler : Exception -> M S A) : M S A :=
  fun s =>
    match body s with
    | (Ok a, s') => (Ok a, s')
    | (Raise e, s') => if catches e then handler e s' else (Raise e, s')
    end.

(* --------------------------------------------------------------------- *)
(* The collaborators                                                      *)
(* --------------------------------------------------------------------- *)

(** What the module imports and is constructed with: the avro schema and
    datum types, the registry client, avro's [DatumWriter] and
    [DatumReader], and fastavro's [schemaless_reader] when it could be
    imported ([HAS_FAST]).  A reader is given the bytes from the cursor on
    and says how many of them it consumed, whether it returns or raises. *)
Class Collaborators : Type := {
  Schema : Type;
  Datum : Type;
  SchemaJson : Type;
  RegistryClient : Type;
  (** [schema.namespace], [None] when the schema has none *)
  schema_namespace : Schema -> option string;
  (** [schema.name] *)
  schema_name : Schema -> string;
  (** [schema.to_json()] *)
  to_json : Schema -> SchemaJson;
  (** [registry_client.register(subject, schema)] *)
  register : RegistryClient -> string -> Schema ->
             Result (option Z) * RegistryClient;
  (** [registry_client.get_by_id(schema_id)] *)
  get_by_id : RegistryClient -> Z -> Result (option Schema) * RegistryClient;
  (** [avro.io.DatumWriter(schema).write(record, BinaryEncoder(outf))]:
      the bytes written *)
  DatumWriter_write : Schema -> Datum -> Result bytes;
  (** [avro.io.DatumReader(writer, reader).read(BinaryDecoder(p))] *)
  DatumReader_read : Schema -> option Schema -> bytes -> Result Datum * nat;
  HAS_FAST : bool;
  (** [fastavro.schemaless_reader(p, writer_schema, reader_schema=None)] *)
  schemaless_reader : bytes -> SchemaJson -> option SchemaJson ->
                      Result Datum * nat;
  (** [repr(traceback.format_exception(exc_type, exc_value, exc_traceback))] *)
  format_exception : Exception -> string
}.

(** Which method asked the registry. *)
Inductive Caller : Type := EncodePath | DecodePath.

Definition Caller_eqb (a b : Caller) : bool :=
  match a, b with
  | EncodePath, EncodePath | DecodePath, DecodePath => true
  | _, _ => false
  end.

(** The calls made to the registry client and the fastavro trials, as a
    log kept beside the object (latest first).  [found] records whether
    [get_by_id] returned a schema. *)
Inductive Event : Type :=
| CallRegister (subject : string)
| CallGetById (site : Caller) (schema_id : Z) (found : bool)
| FastTrial (schema_id : Z).

Section Serializer.

Context `{C : Collaborators}.

(** The value of [id_to_decoder_func[schema_id]]: one of the two closures
    of [_get_decoder_func], with what it captured. *)
Inductive DecoderFunc : Type :=
| FastDecoder (writer_schema reader_schema : SchemaJson)
| SlowDecoder (writer_schema_obj : Schema) (reader_schema_obj : option Schema).

(** A [MessageSerializer] instance.  [id_to_writers] maps an id to the
    [DatumWriter] of a schema, which is given by that schema. *)
Record MessageSerializer : Type := mkMessageSerializer {
  registry_client : RegistryClient;
  id_to_decoder_func : gmap Z DecoderFunc;
  id_to_writers : gmap Z Schema;
  reader_key_schema : option Schema;
  reader_value_schema : option Schema;
  calls : list Event
}.

(** [MessageSerializer.__init__] *)
Definition init (registry_client : RegistryClient)
    (reader_key_schema reader_value_schema : option Schema)
    : MessageSerializer :=
  mkMessageSerializer registry_client ∅ ∅
    reader_key_schema reader_value_schema [].

Definition log (ev : Event) (self : MessageSerializer) : MessageSerializer :=
  mkMessageSerializer (registry_client self) (id_to_decoder_func self)
    (id_to_writers self) (reader_key_schema self) (reader_value_schema self)
    (ev :: calls self).

Definition with_registry (rc : RegistryClient) (self : MessageSerializer)
    : MessageSerializer :=
  mkMessageSerializer rc (id_to_decoder_func self)
    (id_to_writers self) (reader_key_schema self) (reader_value_schema self)
    (calls self).

Definition put_writer (schema_id : Z) (schema : Schema)
    (self : MessageSerializer) : MessageSerializer :=
  mkMessageSerializer (registry_client self) (id_to_decoder_func self)
    (<[schema_id := schema]> (id_to_writers self))
    (reader_key_schema self) (reader_value_schema self) (calls self).

Definition put_decoder_func (schema_id : Z) (f : DecoderFunc)
    (self : MessageSerializer) : MessageSerializer :=
  mkMessageSerializer (registry_client self)
    (<[schema_id := f]> (id_to_decoder_func self))
    (id_to_writers self)
    (reader_key_schema self) (reader_value_schema self) (calls self).

(** [self.id_to_writers[schema_id] = avro.io.DatumWriter(schema)] *)
Definition set_writer (schema_id : Z) (schema : Schema)
    : M MessageSerializer unit :=
  modify (put_writer schema_id schema).

(** [self.id_to_decoder_func[schema_id] = f] *)
Definition set_decoder_func (schema_id : Z) (f : DecoderFunc)
    : M MessageSerializer unit :=
  modify (put_decoder_func schema_id f).

(** [self.registry_client.register(subject, schema)] *)
Definition call_register (subject : string) (schema : Schema)
    : M MessageSerializer (option Z) :=
  fun self =>
    let '(r, rc) := register (registry_client self) subject schema in
    (r, log (CallRegister subject) (with_registry rc self)).

Definition returned_schema (r : Result (option Schema)) : bool :=
  match r with Ok (Some _) => true | _ => false end.

(** [self.registry_client.get_by_id(schema_id)] *)
Definition call_get_by_id (site : Caller) (schema_id : Z)
    : M MessageSerializer (option Schema) :=
  fun self =>
    let '(r, rc) := get_by_id (registry_client self) schema_id in
    (r, log (CallGetById site schema_id (returned_schema r))
          (with_registry rc self)).

(** [self.id_to_writers[schema_id]] *)
Definition get_writer (schema_id : Z) : M MessageSerializer Schema :=
  fun self =>
    match id_to_writers self !! schema_id with
    | Some w => (Ok w, self)
    | None => (Raise (OtherError "KeyError"), self)
    end.

(* --------------------------------------------------------------------- *)
(* Encoding                                                               *)
(* --------------------------------------------------------------------- *)

Definition serialize_err (is_key : bool) : string -> Exception :=
  if is_key then KeySerializerError else ValueSerializerError.

(** [MessageSerializer.encode_record_with_schema_id].  [not schema] holds
    for [None]; a schema object is true.  [outf] receives the magic byte,
    the identifier and what the writer writes, in that order. *)
Definition encode_record_with_schema_id (schema_id : Z) (record : Datum)
    (is_key : bool) : M MessageSerializer bytes :=
  cached <- gets (fun self => id_to_writers self !! schema_id) ;;
  match cached with
  | None =>
      try_except
        (schema <- call_get_by_id EncodePath schema_id ;;
         match schema with
         | None => raise (serialize_err is_key "Schema does not exist")
         | Some schema => set_writer schema_id schema
         end)
        is_ClientError
        (fun e => raise (serialize_err is_key (format_exception e)))
  | Some _ => ret tt
  end ;;;
  writer <- get_writer schema_id ;;
  magic <- lift (struct_pack_b MAGIC_BYTE) ;;
  ident <- lift (struct_pack_I schema_id) ;;
  body <- lift (DatumWriter_write writer record) ;;
  ret (magic ++ ident ++ body)%list.

(** [MessageSerializer.encode_record_with_schema].  [not schema_id] holds
    for [None] and for [0]. *)
Definition encode_record_with_schema (schema : Schema) (record : Datum)
    (is_key : bool) : M MessageSerializer bytes :=
  match schema_namespace schema with
  | None =>
      raise (TypeError
               "unsupported operand type(s) for +: 'NoneType' and 'str'")
  | Some namespace =>
      let subject := namespace ++ "." ++ schema_name schema in
      schema_id <- call_register subject schema ;;
      match schema_id with
      | Some schema_id =>
          if schema_id =? 0
          then raise (serialize_err is_key
                 ("Unable to retrieve schema id for subject " ++ subject))
          else
            set_writer schema_id schema ;;;
            encode_record_with_schema_id schema_id record is_key
      | None =>
          raise (serialize_err is_key
            ("Unable to retrieve schema id for subject " ++ subject))
      end
  end.

(* --------------------------------------------------------------------- *)
(* Decoding                                                               *)
(* --------------------------------------------------------------------- *)

(** Inside [decode_message] a method works on two objects: the serializer
    and the [payload] stream it was handed. *)
Definition Decoding : Type := (MessageSerializer * BytesIO)%type.

Definition on_self {A} (m : M MessageSerializer A) : M Decoding A :=
  fun st =>
    let '(r, self') := m (fst st) in (r, (self', snd st)).

(** [payload.tell()] *)
Definition payload_tell : M Decoding nat := gets (fun st => tell (snd st)).

(** [payload.seek(pos)] *)
Definition payload_seek (pos : nat) : M Decoding unit :=
  modify (fun st => (fst st, bytesio_seek (snd st) pos)).

(** [payload.read(n)] *)
Definition payload_read (n : nat) : M Decoding bytes :=
  fun st =>
    let '(data, payload') := bytesio_read (snd st) n in
    (Ok data, (fst st, payload')).

(** A reader of the collaborators run on [payload]: it sees the bytes from
    the cursor on and leaves the cursor after what it consumed. *)
Definition payload_decode (reader : bytes -> Result Datum * nat)
    : M Decoding Datum :=
  fun st =>
    let '(r, n) := reader (remaining (snd st)) in
    (r, (fst st, bytesio_seek (snd st) (tell (snd st) + n)%nat)).

(** [reader_schema_obj.to_json()], an [AttributeError] on [None]. *)
Definition reader_to_json (reader_schema_obj : option Schema)
    : M Decoding SchemaJson :=
  match reader_schema_obj with
  | Some r => ret (to_json r)
  | None => raise (AttributeError "'NoneType' object has no attribute 'to_json'")
  end.

(** Calling a cached decoder function on the payload. *)
Definition call_decoder_func (f : DecoderFunc) : M Decoding Datum :=
  match f with
  | FastDecoder writer_schema reader_schema =>
      payload_decode
        (fun p => schemaless_reader p writer_schema (Some reader_schema))
  | SlowDecoder writer_schema_obj reader_schema_obj =>
      payload_decode (DatumReader_read writer_schema_obj reader_schema_obj)
  end.

(** The [try] block of [_get_decoder_func] under [if HAS_FAST]: it returns
    the decoder function it bound. *)
Definition fast_avro_trial (schema_id : Z) (writer_schema_obj : Schema)
    (reader_schema_obj : option Schema) (curr_pos : nat)
    : M Decoding DecoderFunc :=
  let writer_schema := to_json writer_schema_obj in
  reader_schema <- reader_to_json reader_schema_obj ;;
  on_self (modify (log (FastTrial schema_id))) ;;;
  payload_decode (fun p => schemaless_reader p writer_schema None) ;;;
  payload_seek curr_pos ;;;
  on_self (set_decoder_func schema_id
             (FastDecoder writer_schema reader_schema)) ;;;
  ret (FastDecoder writer_schema reader_schema).

(** The rest of [_get_decoder_func], after the [if HAS_FAST] block. *)
Definition slow_avro (schema_id : Z) (writer_schema_obj : Schema)
    (reader_schema_obj : option Schema) (curr_pos : nat)
    : M Decoding DecoderFunc :=
  payload_seek curr_pos ;;;
  on_self (set_decoder_func schema_id
             (SlowDecoder writer_schema_obj reader_schema_obj)) ;;;
  ret (SlowDecoder writer_schema_obj reader_schema_obj).

(** [MessageSerializer._get_decoder_func] *)
Definition _get_decoder_func (schema_id : Z) (is_key : bool)
    : M Decoding DecoderFunc :=
  cached <- gets (fun st => id_to_decoder_func (fst st) !! schema_id) ;;
  match cached with
  | Some f => ret f
  | None =>
      writer_schema_obj <-
        try_except (on_self (call_get_by_id DecodePath schema_id))
          is_ClientError
          (fun e => raise (SerializerError
             ("unable to fetch schema with id " ++ percent_d schema_id
              ++ ": " ++ str_of_exception e))) ;;
      match writer_schema_obj with
      | None =>
          raise (SerializerError
            ("unable to fetch schema with id " ++ percent_d schema_id))
      | Some writer_schema_obj =>
          curr_pos <- payload_tell ;;
          reader_schema_obj <-
            gets (fun st => if is_key then reader_key_schema (fst st)
                            else reader_value_schema (fst st)) ;;
          if HAS_FAST
          then
            try_except
              (fast_avro_trial schema_id writer_schema_obj
                 reader_schema_obj curr_pos)
              (fun _ => true)
              (fun _ => slow_avro schema_id writer_schema_obj
                          reader_schema_obj curr_pos)
          else slow_avro schema_id writer_schema_obj
                 reader_schema_obj curr_pos
      end
  end.

(** [with ContextStringIO(message) as payload: body]: the stream lives for
    the block. *)
Definition with_payload {A} (message : bytes) (body : M Decoding A)
    : M MessageSerializer A :=
  fun self =>
    let '(r, st) := body (self, mkBytesIO message 0) in (r, fst st).

(** [MessageSerializer.decode_message] *)
Definition decode_message (message : option bytes) (is_key : bool)
    : M MessageSerializer (option Datum) :=
  match message with
  | None => ret None
  | Some message =>
      if (length message <=? 5)%nat
      then raise (SerializerError "message is too small to decode")
      else
        with_payload message
          (header <- payload_read 5 ;;
           unpacked <- lift (struct_unpack_bI header) ;;
           let '(magic, schema_id) := unpacked in
           if negb (magic =? MAGIC_BYTE)
           then raise (SerializerError
                         "message does not start with magic byte")
           else
             decoder_func <- _get_decoder_func schema_id is_key ;;
             datum <- call_decoder_func decoder_func ;;
             ret (Some datum))
  end.

(* --------------------------------------------------------------------- *)
(* Sequences of calls on one instance                                     *)
(* --------------------------------------------------------------------- *)

Inductive Op : Type :=
| EncodeRecordWithSchema (schema : Schema) (record : Datum) (is_key : bool)
| EncodeRecordWithSchemaId (schema_id : Z) (record : Datum) (is_key : bool)
| DecodeMessage (message : option bytes) (is_key : bool).

(** The instance after one public call, whether it returned or raised. *)
Definition step (self : MessageSerializer) (op : Op) : MessageSerializer :=
  match op with
  | EncodeRecordWithSchema schema record is_key =>
      snd (encode_record_with_schema schema record is_key self)
  | EncodeRecordWithSchemaId schema_id record is_key =>
      snd (encode_record_with_schema_id schema_id record is_key self)
  | DecodeMessage message is_key =>
      snd (decode_message message is_key self)
  end.

Definition run_ops (self : MessageSerializer) (ops : list Op)
    : MessageSerializer :=
  fold_left step ops self.

(** How often the log has a [get_by_id(schema_id)] issued by [site], all
    of them or only those that returned a schema. *)
Definition is_lookup (site : Caller) (schema_id : Z) (only_found : bool)
    (ev : Event) : bool :=
  match ev with
  | CallGetById site' id found =>
      Caller_eqb site' site && (id =? schema_id)
      && (found || negb only_found)
  | _ => false
  end.

Definition is_any_lookup (schema_id : Z) (ev : Event) : bool :=
  match ev with
  | CallGetById _ id _ => id =? schema_id
  | _ => false
  end.

Definition is_trial (schema_id : Z) (ev : Event) : bool :=
  match ev with
  | FastTrial id => id =? schema_id
  | _ => false
  end.

Fixpoint count (p : Event -> bool) (l : list Event) : nat :=
  match l with
  | [] => 0%nat
  | ev :: l' => ((if p ev then 1 else 0) + count p l')%nat
  end.

End Serializer.

Arguments DecoderFunc : clear implicits.
Arguments DecoderFunc {C}.
Arguments MessageSerializer {C}.
Arguments Op {C}.

(* --------------------------------------------------------------------- *)
(* Test doubles for the collaborators                                     *)
(* --------------------------------------------------------------------- *)

(** A small Avro engine (records of null, boolean, string and uuid
    fields), a second reader that lacks logical types, and an in-memory
    registry: enough to run the serializer on concrete messages. *)
Module Mock.

Inductive avro_type : Type := TNull | TBoolean | TString | TUuid.

Record record_schema : Type := mkSchema {
  rs_namespace : option string;
  rs_name : string;
  rs_doc : string;
  rs_fields : list (string * avro_type)
}.

Inductive value : Type := VNone | VBool (b : bool) | VStr (s : string).

(** A record datum is a dict from field names to values. *)
Definition record_datum : Type := list (string * value).

#[global] Instance avro_type_eq_dec : EqDecision avro_type.
Proof. solve_decision. Defined.

#[global] Instance record_schema_eq_dec : EqDecision record_schema.
Proof. solve_decision. Defined.

Fixpoint dict_get (name : string) (d : record_datum) : value :=
  match d with
  | [] => VNone
  | (k, v) :: d' => if String.eqb k name then v else dict_get name d'
  end.

(** Avro's variable-length integer, seven bits a byte, low bits first. *)
Fixpoint varint (fuel : nat) (n : Z) : bytes :=
  match fuel with
  | O => []
  | S fuel' =>
      if n <? 128 then [byte_of_Z n]
      else byte_of_Z (128 + n mod 128) :: varint fuel' (n / 128)
  end.

Fixpoint read_varint (fuel : nat) (bs : bytes) : option (Z * bytes) :=
  match fuel, bs with
  | S fuel', b :: bs' =>
      let u := Z_of_byte b in
      if u <? 128 then Some (u, bs')
      else match read_varint fuel' bs' with
           | Some (hi, rest) => Some (u - 128 + 128 * hi, rest)
           | None => None
           end
  | _, _ => None
  end.

(** A long is written zig-zag; a length is never negative. *)
Definition write_length (n : nat) : bytes := varint 10 (2 * Z.of_nat n).

Definition write_field (t : avro_type) (v : value) : Result bytes :=
  match t, v with
  | TNull, VNone => Ok []
  | TBoolean, VBool b => Ok [if b then x01 else x00]
  | (TString | TUuid), VStr s =>
      let body := String.list_byte_of_string s in
      Ok (write_length (length body) ++ body)%list
  | _, _ => Raise (OtherError "AvroTypeException")
  end.

Fixpoint write_fields (fields : list (string * avro_type)) (d : record_datum)
    : Result bytes :=
  match fields with
  | [] => Ok []
  | (name, t) :: fields' =>
      match write_field t (dict_get name d) with
      | Ok b =>
          match write_fields fields' d with
          | Ok bs => Ok (b ++ bs)%list
          | Raise e => Raise e
          end
      | Raise e => Raise e
      end
  end.

Definition read_field (t : avro_type) (bs : bytes) : option (value * bytes) :=
  match t with
  | TNull => Some (VNone, bs)
  | TBoolean =>
      match bs with
      | b :: bs' => Some (VBool (negb (Z_of_byte b =? 0)), bs')
      | [] => None
      end
  | TString | TUuid =>
      match read_varint 10 bs with
      | Some (n2, rest) =>
          let n := Z.to_nat (n2 / 2) in
          if (n <=? length rest)%nat
          then Some (VStr (String.string_of_list_byte (firstn n rest)), skipn n rest)
          else None
      | None => None
      end
  end.

Fixpoint read_fields (fields : list (string * avro_type)) (bs : bytes)
    : option (record_datum * bytes) :=
  match fields with
  | [] => Some ([], bs)
  | (name, t) :: fields' =>
      match read_field t bs with
      | Some (v, rest) =>
          match read_fields fields' rest with
          | Some (d, rest') => Some ((name, v) :: d, rest')
          | None => None
          end
      | None => None
      end
  end.

(** Schema resolution: the reader's fields, each of which the writer must
    have with the same type. *)
Fixpoint resolve (writer reader : list (string * avro_type))
    (d : record_datum) : option record_datum :=
  match reader with
  | [] => Some []
  | (name, t) :: reader' =>
      if bool_decide ((name, t) ∈ writer)
      then option_map (cons (name, dict_get name d)) (resolve writer reader' d)
      else None
  end.

Definition reference_read (writer : record_schema)
    (reader : option record_schema) (bs : bytes)
    : Result record_datum * nat :=
  match read_fields (rs_fields writer) bs with
  | Some (d, rest) =>
      let used := (length bs - length rest)%nat in
      match reader with
      | None => (Ok d, used)
      | Some r =>
          match resolve (rs_fields writer) (rs_fields r) d with
          | Some d' => (Ok d', used)
          | None => (Raise (OtherError "SchemaResolutionException"), used)
          end
      end
  | None => (Raise (OtherError "EOFError"), length bs)
  end.

(** The second engine reads what the first reads, except that it knows no
    logical type. *)
Definition fast_supported (s : record_schema) : bool :=
  forallb (fun f => negb (bool_decide (snd f = TUuid))) (rs_fields s).

Definition fast_read (bs : bytes) (writer : record_schema)
    (reader : option record_schema) : Result record_datum * nat :=
  if fast_supported writer
  then reference_read writer reader bs
  else (Raise (OtherError "UnknownType: uuid"), 0%nat).

(** The registry: schemas by id, compared without their doc attribute;
    while [reg_outage] lasts every request fails. *)
Record registry : Type := mkRegistry {
  reg_schemas : list (Z * record_schema);
  reg_next_id : Z;
  reg_outage : nat
}.

Definition canonical (s : record_schema) : record_schema :=
  mkSchema (rs_namespace s) (rs_name s) "" (rs_fields s).

Fixpoint find_schema (s : record_schema) (l : list (Z * record_schema))
    : option Z :=
  match l with
  | [] => None
  | (id, s') :: l' =>
      if bool_decide (canonical s' = canonical s) then Some id
      else find_schema s l'
  end.

Fixpoint find_id (id : Z) (l : list (Z * record_schema))
    : option record_schema :=
  match l with
  | [] => None
  | (id', s) :: l' => if id' =? id then Some s else find_id id l'
  end.

Definition registry_register (reg : registry) (subject : string)
    (s : record_schema) : Result (option Z) * registry :=
  match reg_outage reg with
  | S n =>
      (Raise (ClientError "503 Service Unavailable"),
       mkRegistry (reg_schemas reg) (reg_next_id reg) n)
  | O =>
      match find_schema s (reg_schemas reg) with
      | Some id => (Ok (Some id), reg)
      | None =>
          (Ok (Some (reg_next_id reg)),
           mkRegistry ((reg_next_id reg, s) :: reg_schemas reg)
             (reg_next_id reg + 1) O)
      end
  end.

Definition registry_get_by_id (reg : registry) (id : Z)
    : Result (option record_schema) * registry :=
  match reg_outage reg with
  | S n =>
      (Raise (ClientError "503 Service Unavailable"),
       mkRegistry (reg_schemas reg) (reg_next_id reg) n)
  | O => (Ok (find_id id (reg_schemas reg)), reg)
  end.

(** The collaborators, with or without the second engine installed. *)
Definition collaborators (has_fast : bool) : Collaborators := {|
  Schema := record_schema;
  Datum := record_datum;
  SchemaJson := record_schema;
  RegistryClient := registry;
  schema_namespace := rs_namespace;
  schema_name := rs_name;
  to_json := fun s => s;
  register := registry_register;
  get_by_id := registry_get_by_id;
  DatumWriter_write := fun s d => write_fields (rs_fields s) d;
  DatumReader_read := reference_read;
  HAS_FAST := has_fast;
  schemaless_reader := fast_read;
  format_exception := fun e => "['Traceback: " ++ str_of_exception e ++ "']"
|}.

(** The schemas and records of the examples. *)
Definition user_schema : record_schema :=
  mkSchema (Some "test") "User" "" [("name", TString)].

Definition user_schema_documented : record_schema :=
  mkSchema (Some "test") "User" "a user" [("name", TString)].

Definition ping_schema : record_schema :=
  mkSchema (Some "test") "Ping" "" [].

Definition flag_schema : record_schema :=
  mkSchema (Some "test") "Flag" "" [("on", TBoolean)].

Definition ticket_schema : record_schema :=
  mkSchema (Some "test") "Ticket" "" [("id", TUuid)].

Definition alice : record_datum := [("name", VStr "alice")].

(** A registry that holds [user_schema] as 7, [ping_schema] as 8,
    [flag_schema] as 9 and [ticket_schema] as 10. *)
Definition registry7 : registry :=
  mkRegistry [(7, user_schema); (8, ping_schema); (9, flag_schema);
              (10, ticket_schema)] 11 0.

(** A registry that holds nothing yet and numbers its schemas from 0. *)
Definition registry0 : registry := mkRegistry [] 0 0.

(** The collaborators with the second engine installed. *)
Definition fast : Collaborators := collaborators true.

(** A new serializer on [registry7] that reads values as [user_schema]
    and has no reader schema for keys. *)
Definition fresh : @MessageSerializer fast :=
  @init fast registry7 None (Some user_schema).

(** [00 00 00 00 07] and the Avro body of [alice]. *)
Definition alice_message : bytes :=
  [x00; x00; x00; x00; x07; x0a; x61; x6c; x69; x63; x65].

(** [00 00 00 00 08]: the envelope of a [ping_schema] record, whose body
    is empty. *)
Definition ping_message : bytes := [x00; x00; x00; x00; x08].

End Mock.

(* --------------------------------------------------------------------- *)
(* Derived notions used in the statements                                 *)
(* --------------------------------------------------------------------- *)

(** The exception a failed lookup turns into on the encode path. *)
Definition encode_lookup_error `{C : Collaborators} (is_key : bool) (r : Result (option Schema))
    : Exception :=
  match r with
  | Raise e =>
      if is_ClientError e then serialize_err is_key (format_exception e)
      else e
  | _ => serialize_err is_key "Schema does not exist"
  end.

(** The exception a failed lookup turns into in [_get_decoder_func]. *)
Definition decode_lookup_error `{C : Collaborators} (schema_id : Z)
    (r : Result (option Schema)) : Exception :=
  match r with
  | Raise e =>
      if is_ClientError e
      then SerializerError
             ("unable to fetch schema with id " ++ percent_d schema_id
              ++ ": " ++ str_of_exception e)
      else e
  | _ => SerializerError
           ("unable to fetch schema with id " ++ percent_d schema_id)
  end.

(** [schema.namespace + '.' + schema.name] *)
Definition subject_of `{C : Collaborators} (namespace : string)
    (schema : Schema) : string :=
  namespace ++ "." ++ schema_name schema.

(** The exception of [encode_record_with_schema] when [not schema_id]. *)
Definition no_schema_id_error (is_key : bool) (subject : string)
    : Exception :=
  serialize_err is_key
    ("Unable to retrieve schema id for subject " ++ subject).

(** The bytes of the envelope around [body], or the exception of
    [struct.pack] or of the writer. *)
Definition envelope (schema_id : Z) (body : Result bytes) : Result bytes :=
  match struct_pack_I schema_id with
  | Ok ident =>
      match body with
      | Ok body => Ok (x00 :: ident ++ body)%list
      | Raise e => Raise e
      end
  | Raise e => Raise e
  end.

(** What one public call can do to the instance: nothing, or one registry
    call followed by at most one cache entry written. *)
Inductive effect `{C : Collaborators} (self : MessageSerializer)
    : Op -> MessageSerializer -> Prop :=
| effect_none op :
    effect self op self
| effect_register_failed schema record is_key subject rc :
    effect self (EncodeRecordWithSchema schema record is_key)
      (log (CallRegister subject) (with_registry rc self))
| effect_registered schema record is_key subject rc schema_id :
    effect self (EncodeRecordWithSchema schema record is_key)
      (put_writer schema_id schema
         (log (CallRegister subject) (with_registry rc self)))
| effect_writer_lookup_failed schema_id record is_key rc :
    id_to_writers self !! schema_id = None ->
    effect self (EncodeRecordWithSchemaId schema_id record is_key)
      (log (CallGetById EncodePath schema_id false) (with_registry rc self))
| effect_writer_fetched schema_id record is_key rc w :
    id_to_writers self !! schema_id = None ->
    effect self (EncodeRecordWithSchemaId schema_id record is_key)
      (put_writer schema_id w
         (log (CallGetById EncodePath schema_id true)
            (with_registry rc self)))
| effect_decoder_lookup_failed message is_key schema_id rc :
    id_to_decoder_func self !! schema_id = None ->
    effect self (DecodeMessage message is_key)
      (log (CallGetById DecodePath schema_id false) (with_registry rc self))
| effect_decoder_bound message is_key schema_id rc f :
    id_to_decoder_func self !! schema_id = None ->
    effect self (DecodeMessage message is_key)
      (put_decoder_func schema_id f
         (log (CallGetById DecodePath schema_id true)
            (with_registry rc self)))
| effect_decoder_bound_after_trial message is_key schema_id rc f :
    id_to_decoder_func self !! schema_id = None ->
    effect self (DecodeMessage message is_key)
      (put_decoder_func schema_id f
         (log (FastTrial schema_id)
            (log (CallGetById DecodePath schema_id true)
               (with_registry rc self)))).

(** The lookups that returned a schema and the trials are counted once an
    identifier, and not at all while its cache entry is missing. *)
Definition lookups_bounded `{C : Collaborators} (self : MessageSerializer)
    : Prop :=
  forall schema_id,
    (id_to_writers self !! schema_id = None ->
       count (is_lookup EncodePath schema_id true) (calls self) = 0%nat)
    /\ (count (is_lookup EncodePath schema_id true) (calls self) <= 1)%nat
    /\ (id_to_decoder_func self !! schema_id = None ->
          count (is_lookup DecodePath schema_id true) (calls self) = 0%nat
          /\ count (is_trial schema_id) (calls self) = 0%nat)
    /\ (count (is_lookup DecodePath schema_id true) (calls self) <= 1)%nat
    /\ (count (is_trial schema_id) (calls self) <= 1)%nat.

(** The writer [encode_record_with_schema_id] uses for [schema_id] is that
    of [S]: cached, or what the registry returns for it. *)
Definition writes_with `{C : Collaborators} (self : MessageSerializer)
    (schema_id : Z) (S : Schema) : Prop :=
  match id_to_writers self !! schema_id with
  | Some w => w = S
  | None => fst (get_by_id (registry_client self) schema_id) = Ok (Some S)
  end.

(** [decode_message] reads [schema_id] with writer schema and reader
    schema both [S]: through the cached decoder function, or through the
    one it is about to bind. *)
Definition reads_with `{C : Collaborators} (self : MessageSerializer)
    (schema_id : Z) (is_key : bool) (S : Schema) : Prop :=
  match id_to_decoder_func self !! schema_id with
  | Some f =>
      f = SlowDecoder S (Some S) \/ f = FastDecoder (to_json S) (to_json S)
  | None =>
      fst (get_by_id (registry_client self) schema_id) = Ok (Some S)
      /\ (if is_key then reader_key_schema self
          else reader_value_schema self) = Some S
  end.

(** Both readers give back [record] from the bytes the writer of [S]
    produced for it. *)
Definition readers_invert_writer `{C : Collaborators} (S : Schema)
    (record : Datum) (body : bytes) : Prop :=
  DatumWriter_write S record = Ok body
  /\ fst (DatumReader_read S (Some S) body) = Ok record
  /\ fst (schemaless_reader body (to_json S) (Some (to_json S))) = Ok record.

(** What a cached decoder function returns on the bytes before it. *)
Definition run_decoder_func `{C : Collaborators} (f : DecoderFunc)
    (data : bytes) : Result Datum :=
  match f with
  | FastDecoder writer_schema reader_schema =>
      fst (schemaless_reader data writer_schema (Some reader_schema))
  | SlowDecoder writer_schema_obj reader_schema_obj =>
      fst (DatumReader_read writer_schema_obj reader_schema_obj data)
  end.

(** The reader schema a decoder function was bound with, as far as the
    closure shows it. *)
Definition bound_with `{C : Collaborators} (f : DecoderFunc)
    (writer_schema_obj : Schema) (reader_schema_obj : option Schema)
    : Prop :=
  f = SlowDecoder writer_schema_obj reader_schema_obj
  \/ exists r, reader_schema_obj = Some r
       /\ f = FastDecoder (to_json writer_schema_obj) (to_json r).

Definition is_registry_call (ev : Event) : bool :=
  match ev with
  | CallRegister _ | CallGetById _ _ _ => true
  | FastTrial _ => false
  end.

Definition is_encode_op `{C : Collaborators} (op : Op) : bool :=
  match op with
  | EncodeRecordWithSchema _ _ _ | EncodeRecordWithSchemaId _ _ _ => true
  | DecodeMessage _ _ => false
  end.

(* --------------------------------------------------------------------- *)
(* examples/serialization/avro/__main__.py                                *)
(* --------------------------------------------------------------------- *)

(** The example client: its configuration dicts, the delivery callback,
    the record prompt and the consume loop.  The terminal is the lines
    still to be typed and the texts written so far; the consumer is the
    sequence of what its [poll] calls will give. *)
Module Cli.

(** What [argparse] stores on a [ParserOpts] instance: strings, each with
    a string default. *)
Record ParserOpts : Type := mkParserOpts {
  bootstrap_servers : string;
  schema_registry : string;
  topic : string;
  userinfo : string;
  mode : string;
  group : string
}.

(** [ParserOpts._build].  [if self.userinfo] holds for a non-empty
    string. *)
Definition _build (self : ParserOpts) : gmap string string :=
  let conf : gmap string string :=
    <["schema.registry.url" := schema_registry self]>
      (<["bootstrap.servers" := bootstrap_servers self]> ∅) in
  if String.eqb (userinfo self) ""
  then conf
  else
    <["schema.registry.basic.auth.user.info" := userinfo self]>
      (<["schema.registry.basic.auth.credentials.source" := "USER_INFO"]>
         conf).

(** [ParserOpts.producer_conf] *)
Definition producer_conf (self : ParserOpts) : gmap string string :=
  _build self.

(** [ParserOpts.consumer_conf]: [dict({"group.id": self.group},
    **self._build())], where the keyword arguments win. *)
Definition consumer_conf (self : ParserOpts) : gmap string string :=
  _build self ∪ <["group.id" := group self]> ∅.

(** A delivered message, as far as the callback and the loop read it:
    [topic()], [partition()], [offset()] and [str(value())]. *)
Record Message : Type := mkMessage {
  msg_topic : string;
  msg_partition : Z;
  msg_offset : Z;
  msg_value : string
}.

(** [on_delivery(err, msg)]: the value returned and the line printed.
    [err] is given by its [str]. *)
Definition on_delivery (err : option string) (msg : option Message)
    : Result Z * list string :=
  match err, msg with
  | Some err, Some msg =>
      (Ok 0,
       ["Message delivery failed (" ++ msg_topic msg ++ " ["
        ++ percent_d (msg_partition msg) ++ "]): %" ++ err])
  | Some err, None => (Ok 0, ["Message delivery failed " ++ err])
  | None, Some msg =>
      (Ok 1,
       ["Message delivered to " ++ msg_topic msg ++ " ["
        ++ percent_d (msg_partition msg) ++ "] at offset ["
        ++ percent_d (msg_offset msg) ++ "]: " ++ msg_value msg])
  | None, None =>
      (Raise (AttributeError "'NoneType' object has no attribute 'topic'"),
       [])
  end.

(** The values a [User] dict holds. *)
Inductive PyValue : Type := PyStr (s : string) | PyInt (n : Z).

Record Tty : Type := mkTty {
  stdin : list string;
  stdout : list string
}.

(** [print(line)] *)
Definition print (line : string) (tty : Tty) : Tty :=
  mkTty (stdin tty) (stdout tty ++ [line]).

(** [input(text)]: [text] is written, then a line is read; [None] stands
    for the [EOFError] of an exhausted input. *)
Definition input (text : string) (tty : Tty) : option string * Tty :=
  match stdin tty with
  | [] => (None, mkTty [] (stdout tty ++ [text]))
  | line :: rest => (Some line, mkTty rest (stdout tty ++ [text]))
  end.

Inductive PromptError : Type := EOFError | RecursionError.

Inductive PromptEnd : Type := Returned | Raised (e : PromptError).

Section Prompt.

(** [int(s)] for a string: [None] stands for its [ValueError]. *)
Variable int_of_str : string -> option Z.

(** The [try] statement of [User.prompt]: the second [input] and the
    conversion, with [retry] for the [self.prompt()] of the handler.  Only
    [ValueError] is caught; an empty answer stands for 0. *)
Definition prompt_number
    (retry : gmap string PyValue -> Tty -> PromptEnd * gmap string PyValue * Tty)
    (self : gmap string PyValue) (tty : Tty)
    : PromptEnd * gmap string PyValue * Tty :=
  match input "Enter favorite number:" tty with
  | (None, tty') => (Raised EOFError, self, tty')
  | (Some num, tty') =>
      match (if String.eqb num "" then Some 0 else int_of_str num) with
      | Some n => (Returned, <["favorite_number" := PyInt n]> self, tty')
      | None =>
          retry self
            (print "invalid integer type, discarding record..." tty')
      end
  end.

(** The last statement of [User.prompt], reached when the [try] statement
    did not raise. *)
Definition prompt_color
    (after_number : PromptEnd * gmap string PyValue * Tty)
    : PromptEnd * gmap string PyValue * Tty :=
  match after_number with
  | (Returned, self, tty) =>
      match input "Enter favorite color:" tty with
      | (None, tty') => (Raised EOFError, self, tty')
      | (Some color, tty') =>
          (Returned, <["favorite_color" := PyStr color]> self, tty')
      end
  | raised => raised
  end.

(** [User.prompt], with [frames] calls of it still fitting on the
    stack. *)
Fixpoint prompt (frames : nat) (self : gmap string PyValue) (tty : Tty)
    : PromptEnd * gmap string PyValue * Tty :=
  match frames with
  | O => (Raised RecursionError, self, tty)
  | S frames' =>
      match input "Enter name:" tty with
      | (None, tty') => (Raised EOFError, self, tty')
      | (Some name, tty') =>
          prompt_color
            (prompt_number (prompt frames')
               (<["name" := PyStr name]> self) tty')
      end
  end.

End Prompt.

(** What one [c.poll(1)] gives: an exception, [None], or a message with
    its [error()] ([None], or the code and the [str] of a [KafkaError])
    and the [str] of its [value()]. *)
Inductive Polled : Type :=
| PollRaises (e : Exception)
| PollNone
| PollMessage (error : option (Z * string)) (value : string).

(** How [consume] ends: not yet (it polls on), by a [break] followed by
    [c.close()], or by an exception that leaves the function before
    [c.close()]. *)
Inductive ConsumeEnd : Type :=
| Polling
| Closed
| Escaped (e : Exception).

(** [isinstance(e, SerializerError)], the test of
    [except SerializerError]. *)
Definition is_SerializerError (e : Exception) : bool :=
  match e with
  | SerializerError _ | KeySerializerError _ | ValueSerializerError _ => true
  | _ => false
  end.

Section Consume.

(** [KafkaError._PARTITION_EOF] *)
Variable PARTITION_EOF : Z.

(** The [while True] loop of [consume] and the [c.close()] after it, over
    the results the coming [poll] calls give. *)
Fixpoint consume_loop (polls : list Polled) (out : list string)
    : ConsumeEnd * list string :=
  match polls with
  | [] => (Polling, out)
  | PollRaises e :: _ =>
      if is_SerializerError e
      then
        let line := "Message deserialization failed " ++ str_of_exception e in
        (Closed, (out ++ [line])%list)
      else (Escaped e, out)
  | PollNone :: polls' => consume_loop polls' out
  | PollMessage (Some (code, text)) _ :: _ =>
      if code =? PARTITION_EOF then (Closed, out)
      else (Closed, (out ++ [text])%list)
  | PollMessage None value :: polls' =>
      consume_loop polls' (out ++ [value])%list
  end.

(** [consume(args)], from its first [print] on. *)
Definition consume (args : ParserOpts) (polls : list Polled)
    : ConsumeEnd * list string :=
  consume_loop polls ["consuming user records from topic " ++ topic args].

End Consume.

(** The polls that end the loop, and the value a poll makes it print. *)
Definition stops (p : Polled) : bool :=
  match p with
  | PollNone | PollMessage None _ => false
  | _ => true
  end.

Definition printed_value (p : Polled) : list string :=
  match p with
  | PollMessage None value => [value]
  | _ => []
  end.

End Cli.

(* ===================================================================== *)
(* Properties                                                             *)
(* ===================================================================== *)

Lemma Z_of_byte_range b : 0 <= Z_of_byte b < 256.
Proof.
  unfold Z_of_byte. pose proof (Byte.to_N_bounded b). lia.
Qed.

Lemma Z_of_byte_of_Z n : Z_of_byte (byte_of_Z n) = n mod 256.
Proof.
  unfold Z_of_byte, byte_of_Z.
  assert (Hr : 0 <= n mod 256 < 256) by (apply Z.mod_pos_bound; lia).
  destruct (Byte.of_N (Z.to_N (n mod 256))) as [b|] eqn:E.
  - apply Byte.to_of_N in E. rewrite E. apply Z2N.id. lia.
  - apply Byte.of_N_None_iff in E. lia.
Qed.

Lemma Z_of_byte_inj a b : Z_of_byte a = Z_of_byte b -> a = b.
Proof.
  unfold Z_of_byte. intros H. apply N2Z.inj in H.
  assert (E : Byte.of_N (Byte.to_N a) = Byte.of_N (Byte.to_N b))
    by (now rewrite H).
  rewrite !Byte.of_to_N in E. congruence.
Qed.

Lemma Z_of_byte_x00 : Z_of_byte x00 = 0.
Proof. reflexivity. Qed.

Lemma lor_shiftl_small a b k :
  0 <= k -> 0 <= b < 2 ^ k -> Z.lor (Z.shiftl a k) b = a * 2 ^ k + b.
Proof.
  intros Hk Hb. rewrite Z.shiftl_mul_pow2 by lia.
  symmetry. apply Z.add_nocarry_lor.
  apply Z.bits_inj'. intros i Hi.
  rewrite Z.land_spec, Z.bits_0.
  destruct (Z.lt_ge_cases i k) as [Hlt|Hge].
  - rewrite Z.mul_pow2_bits_low by lia. reflexivity.
  - rewrite <- (Z.mod_small b (2 ^ k)) by lia.
    rewrite Z.mod_pow2_bits_high by lia. apply andb_false_r.
Qed.

(** What [struct.unpack('>bI', ...)] reads as the identifier is the
    big-endian value of the four bytes after the first. *)
Lemma struct_unpack_bI_big_endian m b3 b2 b1 b0 :
  struct_unpack_bI [m; b3; b2; b1; b0] =
    Ok (if Z_of_byte m <? 128 then Z_of_byte m else Z_of_byte m - 256,
        big_endian [b3; b2; b1; b0]).
Proof.
  unfold struct_unpack_bI, big_endian. cbn [fold_left].
  pose proof (Z_of_byte_range b3). pose proof (Z_of_byte_range b2).
  pose proof (Z_of_byte_range b1). pose proof (Z_of_byte_range b0).
  do 2 f_equal.
  rewrite (lor_shiftl_small (Z_of_byte b1) (Z_of_byte b0) 8) by lia.
  rewrite (lor_shiftl_small (Z_of_byte b2) _ 16) by lia.
  rewrite (lor_shiftl_small (Z_of_byte b3) _ 24) by lia.
  lia.
Qed.

(** [struct.pack('>I', n)] succeeds exactly on the unsigned 32-bit
    integers, with four bytes whose big-endian value is [n]. *)
Lemma struct_pack_I_spec n :
  0 <= n < 2 ^ 32 ->
  exists b3 b2 b1 b0,
    struct_pack_I n = Ok [b3; b2; b1; b0] /\ big_endian [b3; b2; b1; b0] = n.
Proof.
  intros Hn. unfold struct_pack_I.
  replace ((0 <=? n) && (n <? 2 ^ 32)) with true by (symmetry; apply andb_true_intro; split; [apply Z.leb_le|apply Z.ltb_lt]; lia).
  do 4 eexists. split; [reflexivity|].
  unfold big_endian. cbn [fold_left].
  rewrite !Z_of_byte_of_Z, !Z.shiftr_div_pow2 by lia.
  change (2 ^ 24) with 16777216. change (2 ^ 16) with 65536.
  change (2 ^ 8) with 256. change (2 ^ 32) with 4294967296 in Hn.
  Z.to_euclidean_division_equations. lia.
Qed.

Lemma struct_pack_I_out_of_range n :
  ~ (0 <= n < 2 ^ 32) -> exists e, struct_pack_I n = Raise e.
Proof.
  intros Hn. unfold struct_pack_I.
  destruct ((0 <=? n) && (n <? 2 ^ 32)) eqn:E.
  - apply andb_prop in E as [E1 E2].
    apply Z.leb_le in E1. apply Z.ltb_lt in E2. lia.
  - destruct ((2 ^ 32 <=? n) && (n <? 2 ^ 64)); eauto.
Qed.

Lemma struct_pack_I_inv n bs :
  struct_pack_I n = Ok bs ->
  0 <= n < 2 ^ 32 /\ length bs = 4%nat /\ big_endian bs = n.
Proof.
  intros H.
  destruct (Z_le_dec 0 n) as [H0|H0], (Z_lt_dec n (2 ^ 32)) as [H1|H1];
    try (destruct (struct_pack_I_out_of_range n) as [e He];
         [lia | congruence]).
  destruct (struct_pack_I_spec n) as (b3 & b2 & b1 & b0 & E & V); [lia|].
  rewrite E in H. inversion H; subst. auto.
Qed.

Lemma struct_pack_b_magic : struct_pack_b MAGIC_BYTE = Ok [x00].
Proof. reflexivity. Qed.

Section Properties.

Context `{C : Collaborators}.

Implicit Types (self : MessageSerializer) (record : Datum) (schema_id : Z)
  (is_key : bool) (payload : BytesIO).

(** Unfolding the monad, leaving the method bodies as nested matches. *)
Ltac run_monad :=
  repeat progress
    unfold bind, ret, raise, gets, modify, lift, try_except, on_self,
      with_payload, payload_tell, payload_seek, payload_read, payload_decode
      in *.

(** With the writer cached, [encode_record_with_schema_id] neither asks
    the registry nor touches the instance. *)
Lemma encode_cached self schema_id record is_key writer :
  id_to_writers self !! schema_id = Some writer ->
  encode_record_with_schema_id schema_id record is_key self =
    (match struct_pack_I schema_id with
     | Ok ident =>
         match DatumWriter_write writer record with
         | Ok body => Ok (x00 :: ident ++ body)%list
         | Raise e => Raise e
         end
     | Raise e => Raise e
     end, self).
Proof.
  intros Hw. unfold encode_record_with_schema_id, get_writer. run_monad.
  rewrite Hw. cbn. rewrite Hw.
  destruct (struct_pack_I schema_id); [|reflexivity].
  destruct (DatumWriter_write writer record); reflexivity.
Qed.

(** C2.  With the identifier already resolved (its writer is cached),
    [encode_record_with_schema_id] returns, for a record the writer
    accepts, the byte 0x00, then four bytes whose big-endian value is the
    identifier, then the writer's bytes unchanged, at least 5 bytes in
    all; and whatever byte string it returns has that layout.  The
    identifier is an unsigned 32-bit integer, as the wire format has
    it. *)
Theorem encode_record_with_schema_id_layout
    self schema_id record is_key writer :
  id_to_writers self !! schema_id = Some writer ->
  (forall body,
     0 <= schema_id < 2 ^ 32 ->
     DatumWriter_write writer record = Ok body ->
     exists ident,
       encode_record_with_schema_id schema_id record is_key self =
         (Ok (x00 :: ident ++ body)%list, self)
       /\ length ident = 4%nat /\ big_endian ident = schema_id
       /\ (5 <= length (x00 :: ident ++ body))%nat)
  /\
  (forall out self',
     encode_record_with_schema_id schema_id record is_key self =
       (Ok out, self') ->
     exists ident body,
       DatumWriter_write writer record = Ok body
       /\ out = (x00 :: ident ++ body)%list
       /\ length ident = 4%nat /\ big_endian ident = schema_id
       /\ (5 <= length out)%nat).
Proof.
  intros Hw. rewrite (encode_cached _ _ _ _ _ Hw). split.
  - intros body Hid Hbody.
    destruct (struct_pack_I_spec schema_id Hid) as (b3 & b2 & b1 & b0 & E & V).
    exists [b3; b2; b1; b0]. rewrite E, Hbody.
    repeat split; auto. cbn. lia.
  - intros out self' H.
    destruct (struct_pack_I schema_id) as [ident|] eqn:E; [|discriminate].
    destruct (DatumWriter_write writer record) as [body|] eqn:B;
      [|discriminate].
    apply struct_pack_I_inv in E as (_ & L & V).
    inversion H; subst. exists ident, body.
    repeat split; auto. cbn. rewrite length_app. lia.
Qed.

(** A message of at most 5 bytes is refused at the length test. *)
Lemma decode_message_too_small self message is_key :
  (length message <= 5)%nat ->
  decode_message (Some message) is_key self =
    (Raise (SerializerError "message is too small to decode"), self).
Proof.
  intros H. unfold decode_message. run_monad.
  apply Nat.leb_le in H. rewrite H. reflexivity.
Qed.

(** Past the length test the header is the first five bytes, and a first
    byte other than 0x00 is refused without looking further. *)
Lemma decode_message_bad_magic self m b3 b2 b1 b0 b rest is_key :
  m <> x00 ->
  decode_message (Some (m :: b3 :: b2 :: b1 :: b0 :: b :: rest)) is_key self =
    (Raise (SerializerError "message does not start with magic byte"), self).
Proof.
  intros Hm. unfold decode_message. run_monad.
  cbn [length Nat.leb bytesio_read getvalue tell skipn firstn fst snd].
  rewrite struct_unpack_bI_big_endian.
  pose proof (Z_of_byte_range m) as Hr.
  assert (Hz : Z_of_byte m <> 0).
  { intros E. apply Hm. apply Z_of_byte_inj. now rewrite E. }
  assert (Hneq : ((if Z_of_byte m <? 128 then Z_of_byte m
                   else Z_of_byte m - 256) =? MAGIC_BYTE) = false).
  { apply Z.eqb_neq. unfold MAGIC_BYTE.
    destruct (Z_of_byte m <? 128); lia. }
  rewrite Hneq. reflexivity.
Qed.

(** C3.  A message shorter than 5 bytes, and a message of 5 bytes or more
    whose first byte is not 0x00, makes [decode_message] raise a
    [SerializerError]; the error is the same whatever the instance holds,
    and the instance (registry client, both caches, call log) is left as
    it was: no registry call, no cache read or written. *)
Theorem decode_message_framing_rejection (message : bytes) :
  (length message < 5)%nat
  \/ ((5 <= length message)%nat /\ hd x00 message <> x00) ->
  exists msg,
    forall self is_key,
      decode_message (Some message) is_key self =
        (Raise (SerializerError msg), self).
Proof.
  intros H.
  destruct (le_lt_dec (length message) 5) as [Hle|Hgt].
  - eexists. intros. now apply decode_message_too_small.
  - destruct H as [H|[_ Hm]]; [lia|].
    destruct message as [|m [|b3 [|b2 [|b1 [|b0 [|b rest]]]]]];
      cbn in Hgt; try lia.
    eexists. intros. now apply decode_message_bad_magic.
Qed.

(** C4 (what the code does).  A message of exactly 5 bytes, with the 0x00
    marker and an empty body, is refused as too small: the length test is
    [len(message) <= 5]. *)
Theorem decode_message_five_bytes_rejected self b3 b2 b1 b0 is_key :
  decode_message (Some [x00; b3; b2; b1; b0]) is_key self =
    (Raise (SerializerError "message is too small to decode"), self).
Proof. apply decode_message_too_small. cbn. lia. Qed.

(* --------------------------------------------------------------------- *)
(* What each method does to the instance, case by case                    *)
(* --------------------------------------------------------------------- *)

(** The bytes [encode_record_with_schema_id] returns once the writer is
    at hand. *)
Lemma encode_uncached_found self schema_id record is_key w rc' :
  id_to_writers self !! schema_id = None ->
  get_by_id (registry_client self) schema_id = (Ok (Some w), rc') ->
  encode_record_with_schema_id schema_id record is_key self =
    (match struct_pack_I schema_id with
     | Ok ident =>
         match DatumWriter_write w record with
         | Ok body => Ok (x00 :: ident ++ body)%list
         | Raise e => Raise e
         end
     | Raise e => Raise e
     end,
     put_writer schema_id w
       (log (CallGetById EncodePath schema_id true)
          (with_registry rc' self))).
Proof.
  intros Hw Hg.
  unfold encode_record_with_schema_id, get_writer, call_get_by_id,
    set_writer.
  run_monad. rewrite Hw, Hg. cbn. rewrite lookup_insert_eq.
  destruct (struct_pack_I schema_id); [|reflexivity].
  destruct (DatumWriter_write w record); reflexivity.
Qed.

Lemma encode_uncached_failed self schema_id record is_key r rc' :
  id_to_writers self !! schema_id = None ->
  get_by_id (registry_client self) schema_id = (r, rc') ->
  returned_schema r = false ->
  encode_record_with_schema_id schema_id record is_key self =
    (Raise (encode_lookup_error is_key r),
     log (CallGetById EncodePath schema_id false) (with_registry rc' self)).
Proof.
  intros Hw Hg Hr.
  unfold encode_record_with_schema_id, call_get_by_id. run_monad.
  rewrite Hw, Hg, Hr. cbn.
  destruct r as [[w|]|e]; cbn in *; try discriminate.
  - destruct is_key; reflexivity.
  - destruct (is_ClientError e); reflexivity.
Qed.

(** A cached decoder function is returned as it is. *)
Lemma get_decoder_func_cached self payload schema_id is_key f :
  id_to_decoder_func self !! schema_id = Some f ->
  _get_decoder_func schema_id is_key (self, payload) =
    (Ok f, (self, payload)).
Proof.
  intros Hf. unfold _get_decoder_func. run_monad. cbv beta iota delta [fst snd]. rewrite Hf.
  reflexivity.
Qed.

Lemma get_decoder_func_failed self payload schema_id is_key r rc' :
  id_to_decoder_func self !! schema_id = None ->
  get_by_id (registry_client self) schema_id = (r, rc') ->
  returned_schema r = false ->
  _get_decoder_func schema_id is_key (self, payload) =
    (Raise (decode_lookup_error schema_id r),
     (log (CallGetById DecodePath schema_id false) (with_registry rc' self),
      payload)).
Proof.
  intros Hf Hg Hr. unfold _get_decoder_func, call_get_by_id. run_monad.
  cbv beta iota delta [fst snd]. rewrite Hf, Hg, Hr. cbn.
  destruct r as [[w|]|e]; cbn in *; try discriminate.
  - reflexivity.
  - destruct (is_ClientError e); reflexivity.
Qed.

(** The decoder function a fresh resolution binds: the fast one when
    fastavro is there, the reader schema is set and the trial returned;
    the slow one otherwise. *)
Lemma get_decoder_func_resolved self payload schema_id is_key w rc' :
  id_to_decoder_func self !! schema_id = None ->
  get_by_id (registry_client self) schema_id = (Ok (Some w), rc') ->
  let self1 := log (CallGetById DecodePath schema_id true)
                 (with_registry rc' self) in
  let reader : option Schema :=
    if is_key then reader_key_schema self else reader_value_schema self in
  let slow : (Result DecoderFunc * Decoding)%type :=
    (Ok (SlowDecoder w reader),
     (put_decoder_func schema_id (SlowDecoder w reader) self1, payload)) in
  _get_decoder_func schema_id is_key (self, payload) =
    match reader with
    | Some r =>
        if HAS_FAST
        then
          let f :=
            if is_Ok (fst (schemaless_reader (remaining payload)
                             (to_json w) None))
            then FastDecoder (to_json w) (to_json r)
            else SlowDecoder w reader in
          (Ok f,
           (put_decoder_func schema_id f (log (FastTrial schema_id) self1),
            payload))
        else slow
    | None => slow
    end.
Proof.
  intros Hf Hg self1 reader slow. subst slow self1 reader.
  unfold _get_decoder_func, call_get_by_id, fast_avro_trial, slow_avro,
    reader_to_json, set_decoder_func.
  run_monad. cbv beta iota delta [fst snd]. rewrite Hf, Hg.
  destruct payload as [buf pos]. unfold bytesio_seek, remaining.
  cbn [tell getvalue reader_key_schema reader_value_schema log
       with_registry returned_schema].
  destruct is_key;
    [destruct (reader_key_schema self) as [r|]
    |destruct (reader_value_schema self) as [r|]];
    destruct HAS_FAST; try reflexivity;
    cbv beta iota delta [fst snd tell getvalue];
    destruct (schemaless_reader (skipn pos buf) (to_json w) None)
      as [[d|e] n]; reflexivity.
Qed.

(** [encode_record_with_schema], case by case on what [register]
    returns. *)
Lemma encode_record_with_schema_cases self schema record is_key namespace
    r rc' :
  schema_namespace schema = Some namespace ->
  register (registry_client self) (subject_of namespace schema) schema =
    (r, rc') ->
  let subject := subject_of namespace schema in
  let self1 := log (CallRegister subject) (with_registry rc' self) in
  encode_record_with_schema schema record is_key self =
    match r with
    | Raise e => (Raise e, self1)
    | Ok None => (Raise (no_schema_id_error is_key subject), self1)
    | Ok (Some schema_id) =>
        if schema_id =? 0
        then (Raise (no_schema_id_error is_key subject), self1)
        else (envelope schema_id (DatumWriter_write schema record),
              put_writer schema_id schema self1)
    end.
Proof.
  intros Hns Hreg subject self1.
  unfold encode_record_with_schema, call_register, set_writer.
  rewrite Hns. fold (subject_of namespace schema). fold subject.
  run_monad. unfold subject in *. rewrite Hreg.
  destruct r as [[schema_id|]|e]; try reflexivity.
  destruct (schema_id =? 0); [reflexivity|].
  rewrite (encode_cached _ _ _ _ schema);
    [reflexivity | apply lookup_insert_eq].
Qed.

(** C10.  When [register] returns 0, [encode_record_with_schema] does
    what it does when [register] returns [None]: it raises
    [KeySerializerError] (is_key) or [ValueSerializerError] with the same
    message and leaves both caches as they were; and when it returns
    bytes, [register] had returned a nonzero identifier. *)
Theorem encode_record_with_schema_zero_id_is_absent
    self schema record is_key namespace
    (returned : option Z) rc' :
  schema_namespace schema = Some namespace ->
  register (registry_client self) (subject_of namespace schema) schema =
    (Ok returned, rc') ->
  let subject := subject_of namespace schema in
  let self' := snd (encode_record_with_schema schema record is_key self) in
  ((returned = Some 0 \/ returned = None) ->
     encode_record_with_schema schema record is_key self =
       (Raise ((if is_key then KeySerializerError else ValueSerializerError)
                 ("Unable to retrieve schema id for subject " ++ subject)),
        log (CallRegister subject) (with_registry rc' self))
     /\ id_to_writers self' = id_to_writers self
     /\ id_to_decoder_func self' = id_to_decoder_func self)
  /\
  (forall out,
     fst (encode_record_with_schema schema record is_key self) = Ok out ->
     exists id, returned = Some id /\ id <> 0
       /\ envelope id (DatumWriter_write schema record) = Ok out
       /\ id_to_writers self' !! id = Some schema).
Proof.
  intros Hns Hreg subject self'. subst self'.
  rewrite (encode_record_with_schema_cases _ _ _ _ _ _ _ Hns Hreg).
  fold subject. split.
  - intros [->| ->]; cbn; auto.
  - intros out Hout.
    destruct returned as [id|]; [|discriminate].
    destruct (id =? 0) eqn:E; [discriminate|].
    apply Z.eqb_neq in E. exists id. cbn in *.
    repeat split; auto. apply lookup_insert_eq.
Qed.

(** C7.  With fastavro available, resolving an uncached identifier whose
    schema the registry returns never raises, whatever the trial does:
    when the trial decode raises (or the reader schema cannot be
    converted) the identifier is bound to the slow decoder, when it
    returns it is bound to the fast one; either way the payload stream
    comes back with the buffer and the cursor it had before. *)
Theorem get_decoder_func_trial_is_silent
    self payload schema_id is_key writer_schema_obj rc' :
  HAS_FAST = true ->
  id_to_decoder_func self !! schema_id = None ->
  get_by_id (registry_client self) schema_id =
    (Ok (Some writer_schema_obj), rc') ->
  let reader_schema_obj : option Schema :=
    if is_key then reader_key_schema self else reader_value_schema self in
  let trial :=
    fst (schemaless_reader (remaining payload)
           (to_json writer_schema_obj) None) in
  exists f self',
    _get_decoder_func schema_id is_key (self, payload) =
      (Ok f, (self', payload))
    /\ id_to_decoder_func self' !! schema_id = Some f
    /\ (forall e, trial = Raise e ->
          f = SlowDecoder writer_schema_obj reader_schema_obj)
    /\ (reader_schema_obj = None ->
          f = SlowDecoder writer_schema_obj reader_schema_obj)
    /\ (forall r datum,
          reader_schema_obj = Some r -> trial = Ok datum ->
          f = FastDecoder (to_json writer_schema_obj) (to_json r)).
Proof.
  intros Hfast Hf Hg reader trial.
  rewrite (get_decoder_func_resolved _ payload _ is_key _ _ Hf Hg).
  fold reader. rewrite Hfast. unfold trial.
  destruct reader as [r|].
  - do 2 eexists. split; [reflexivity|].
    split; [apply lookup_insert_eq|].
    repeat split.
    + intros e He. rewrite He. reflexivity.
    + discriminate.
    + intros r0 datum Hr Ht. rewrite Ht. inversion Hr. reflexivity.
  - do 2 eexists. split; [reflexivity|].
    split; [apply lookup_insert_eq|].
    repeat split; auto. discriminate.
Qed.

(** C9.  When the reader schema that applies (key or value) is unset,
    resolving an uncached identifier whose schema the registry returns
    binds the slow decoder, with or without fastavro and whatever
    fastavro would make of the payload: no trial is logged, nothing is
    raised, and the payload stream is as it was. *)
Theorem get_decoder_func_unset_reader_binds_slow
    self payload schema_id is_key writer_schema_obj rc' :
  id_to_decoder_func self !! schema_id = None ->
  get_by_id (registry_client self) schema_id =
    (Ok (Some writer_schema_obj), rc') ->
  (if is_key then reader_key_schema self else reader_value_schema self)
    = None ->
  exists self',
    _get_decoder_func schema_id is_key (self, payload) =
      (Ok (SlowDecoder writer_schema_obj None), (self', payload))
    /\ id_to_decoder_func self' !! schema_id =
         Some (SlowDecoder writer_schema_obj None)
    /\ calls self' = CallGetById DecodePath schema_id true :: calls self
    /\ count (is_trial schema_id) (calls self') =
         count (is_trial schema_id) (calls self).
Proof.
  intros Hf Hg Hr.
  rewrite (get_decoder_func_resolved _ payload _ is_key _ _ Hf Hg).
  rewrite Hr. eexists. split; [reflexivity|].
  split; [apply lookup_insert_eq|]. split; reflexivity.
Qed.

(** A call for an identifier whose writer is not cached asks the registry
    once, whatever comes of it. *)
Lemma encode_uncached_asks self schema_id record is_key :
  id_to_writers self !! schema_id = None ->
  exists found,
    calls (snd (encode_record_with_schema_id schema_id record is_key self)) =
      CallGetById EncodePath schema_id found :: calls self.
Proof.
  intros Hw.
  destruct (get_by_id (registry_client self) schema_id) as [r rc'] eqn:Hg.
  destruct (returned_schema r) eqn:Hr.
  - destruct r as [[w|]|e]; try discriminate.
    rewrite (encode_uncached_found _ _ _ _ _ _ Hw Hg). eexists. reflexivity.
  - rewrite (encode_uncached_failed _ _ _ _ _ _ Hw Hg Hr).
    eexists. reflexivity.
Qed.

(** The same for a decoder resolution: the lookup is the first call it
    logs. *)
Lemma get_decoder_func_uncached_asks self payload schema_id is_key :
  id_to_decoder_func self !! schema_id = None ->
  exists found trial,
    calls (fst (snd (_get_decoder_func schema_id is_key (self, payload)))) =
      (trial ++ CallGetById DecodePath schema_id found :: calls self)%list.
Proof.
  intros Hf.
  destruct (get_by_id (registry_client self) schema_id) as [r rc'] eqn:Hg.
  destruct (returned_schema r) eqn:Hr.
  - destruct r as [[w|]|e]; try discriminate.
    rewrite (get_decoder_func_resolved _ payload _ is_key _ _ Hf Hg).
    destruct (if is_key then reader_key_schema self
              else reader_value_schema self) as [rd|];
      [destruct HAS_FAST|].
    + exists true, [FastTrial schema_id]. reflexivity.
    + exists true, []. reflexivity.
    + exists true, []. reflexivity.
  - rewrite (get_decoder_func_failed _ payload _ is_key _ _ Hf Hg Hr).
    exists false, []. reflexivity.
Qed.

(** C8.  A resolution that fails leaves both caches as they were, so the
    next call for the identifier asks the registry again.  This holds
    (1) for [encode_record_with_schema_id], (2) for [_get_decoder_func],
    when [get_by_id] raises or returns no schema, and (3) for
    [encode_record_with_schema] when [register] raises or returns no
    identifier ([None], or 0). *)
Theorem failed_resolution_is_not_cached self is_key :
  (forall schema_id record r rc',
     id_to_writers self !! schema_id = None ->
     get_by_id (registry_client self) schema_id = (r, rc') ->
     returned_schema r = false ->
     let res := encode_record_with_schema_id schema_id record is_key self in
     is_Ok (fst res) = false
     /\ id_to_writers (snd res) = id_to_writers self
     /\ id_to_decoder_func (snd res) = id_to_decoder_func self
     /\ forall record' is_key',
          exists found,
            calls (snd (encode_record_with_schema_id schema_id record'
                          is_key' (snd res))) =
              CallGetById EncodePath schema_id found :: calls (snd res))
  /\
  (forall schema_id payload r rc',
     id_to_decoder_func self !! schema_id = None ->
     get_by_id (registry_client self) schema_id = (r, rc') ->
     returned_schema r = false ->
     let res := _get_decoder_func schema_id is_key (self, payload) in
     is_Ok (fst res) = false
     /\ id_to_writers (fst (snd res)) = id_to_writers self
     /\ id_to_decoder_func (fst (snd res)) = id_to_decoder_func self
     /\ forall payload' is_key',
          exists found trial,
            calls (fst (snd (_get_decoder_func schema_id is_key'
                               (fst (snd res), payload')))) =
              (trial ++ CallGetById DecodePath schema_id found
                 :: calls (fst (snd res)))%list)
  /\
  (forall schema record namespace r rc',
     schema_namespace schema = Some namespace ->
     register (registry_client self) (subject_of namespace schema) schema =
       (r, rc') ->
     (r = Ok None \/ r = Ok (Some 0) \/ exists e, r = Raise e) ->
     let res := encode_record_with_schema schema record is_key self in
     is_Ok (fst res) = false
     /\ id_to_writers (snd res) = id_to_writers self
     /\ id_to_decoder_func (snd res) = id_to_decoder_func self).
Proof.
  split; [|split].
  - intros schema_id record r rc' Hw Hg Hr res. subst res.
    rewrite (encode_uncached_failed _ _ _ _ _ _ Hw Hg Hr).
    cbn [fst snd]. repeat split.
    intros record' is_key'. apply encode_uncached_asks. exact Hw.
  - intros schema_id payload r rc' Hf Hg Hr res. subst res.
    rewrite (get_decoder_func_failed _ payload _ is_key _ _ Hf Hg Hr).
    cbn [fst snd]. repeat split.
    intros payload' is_key'. apply get_decoder_func_uncached_asks. exact Hf.
  - intros schema record namespace r rc' Hns Hreg Hr res. subst res.
    rewrite (encode_record_with_schema_cases _ _ _ _ _ _ _ Hns Hreg).
    destruct Hr as [->|[->|[e ->]]]; cbn [fst snd]; repeat split.
Qed.

(* --------------------------------------------------------------------- *)
(* The effect of a call                                                   *)
(* --------------------------------------------------------------------- *)

(** Running a cached decoder moves the payload cursor and nothing else. *)
Lemma call_decoder_func_self (f : DecoderFunc) (st : Decoding) :
  fst (snd (call_decoder_func f st)) = fst st.
Proof.
  destruct f; unfold call_decoder_func; run_monad;
    match goal with |- context [let '(_, _) := ?x in _] => destruct x end;
    reflexivity.
Qed.

Lemma get_decoder_func_effect self payload schema_id is_key message :
  effect self (DecodeMessage message is_key)
    (fst (snd (_get_decoder_func schema_id is_key (self, payload)))).
Proof.
  destruct (id_to_decoder_func self !! schema_id) as [f|] eqn:Hf.
  - rewrite (get_decoder_func_cached _ _ _ _ _ Hf). constructor.
  - destruct (get_by_id (registry_client self) schema_id) as [r rc'] eqn:Hg.
    destruct (returned_schema r) eqn:Hr.
    + destruct r as [[w|]|e]; try discriminate.
      rewrite (get_decoder_func_resolved _ payload _ is_key _ _ Hf Hg).
      destruct (if is_key then reader_key_schema self
                else reader_value_schema self) as [rd|];
        [destruct HAS_FAST|]; cbn [fst snd].
      * now apply effect_decoder_bound_after_trial.
      * now apply effect_decoder_bound.
      * now apply effect_decoder_bound.
    + rewrite (get_decoder_func_failed _ payload _ is_key _ _ Hf Hg Hr).
      now apply effect_decoder_lookup_failed.
Qed.

Lemma step_effect self (op : Op) : effect self op (step self op).
Proof.
  destruct op as [schema record is_key|schema_id record is_key
                 |message is_key]; unfold step.
  - destruct (schema_namespace schema) as [namespace|] eqn:Hns.
    + destruct (register (registry_client self)
                  (subject_of namespace schema) schema) as [r rc'] eqn:Hreg.
      rewrite (encode_record_with_schema_cases _ _ _ _ _ _ _ Hns Hreg).
      destruct r as [[schema_id|]|e]; cbn [snd]; try constructor.
      destruct (schema_id =? 0); constructor.
    + unfold encode_record_with_schema. rewrite Hns. constructor.
  - destruct (id_to_writers self !! schema_id) as [w|] eqn:Hw.
    + rewrite (encode_cached _ _ _ _ _ Hw). constructor.
    + destruct (get_by_id (registry_client self) schema_id)
        as [r rc'] eqn:Hg.
      destruct (returned_schema r) eqn:Hr.
      * destruct r as [[w|]|e]; try discriminate.
        rewrite (encode_uncached_found _ _ _ _ _ _ Hw Hg).
        now apply effect_writer_fetched.
      * rewrite (encode_uncached_failed _ _ _ _ _ _ Hw Hg Hr).
        now apply effect_writer_lookup_failed.
  - destruct message as [message|]; [|constructor].
    unfold decode_message.
    destruct (length message <=? 5)%nat; [constructor|].
    unfold with_payload, bind, payload_read, lift.
    cbv beta iota delta [fst snd].
    destruct (bytesio_read _ 5) as [header payload'].
    destruct (struct_unpack_bI header) as [[magic schema_id]|e];
      [|constructor].
    destruct (negb (magic =? MAGIC_BYTE)); [constructor|].
    pose proof (get_decoder_func_effect self payload' schema_id is_key
                  (Some message)) as He.
    destruct (_get_decoder_func schema_id is_key (self, payload'))
      as [[f|e] st] eqn:Eg; cbn [fst snd] in He.
    + pose proof (call_decoder_func_self f st) as Hc.
      destruct (call_decoder_func f st) as [[d|e] [self' p']];
        simpl in Hc; subst self'; exact He.
    + exact He.
Qed.

(** A property that every effect preserves holds along every sequence of
    calls. *)
Lemma run_ops_invariant (P : MessageSerializer -> Prop) :
  (forall self op self', P self -> effect self op self' -> P self') ->
  forall ops self, P self -> P (run_ops self ops).
Proof.
  intros Hstep ops. induction ops as [|op ops IH]; intros self HP.
  - exact HP.
  - cbn. apply IH. apply (Hstep self op). exact HP. apply step_effect.
Qed.

Lemma lookups_bounded_init rc rk rv : lookups_bounded (init rc rk rv).
Proof. intros schema_id. cbn. repeat split; lia. Qed.

Ltac count_step :=
  cbn [calls log with_registry put_writer put_decoder_func
       id_to_writers id_to_decoder_func count is_lookup is_trial
       Caller_eqb andb orb negb].

Lemma lookups_bounded_effect self op self' :
  lookups_bounded self -> effect self op self' -> lookups_bounded self'.
Proof.
  intros Hinv He id. specialize (Hinv id).
  destruct Hinv as (Hw0 & Hw1 & Hd0 & Hd1 & Ht1).
  destruct He; count_step.
  - auto.
  - auto.
  - split; [|auto]. intros Hnone. apply Hw0.
    destruct (decide (schema_id = id)) as [->|Hne].
    + rewrite lookup_insert_eq in Hnone. discriminate.
    + rewrite lookup_insert_ne in Hnone by exact Hne. exact Hnone.
  - destruct (schema_id =? id); cbn; auto.
  - destruct (Z.eqb_spec schema_id id) as [->|Hne]; cbn.
    + rewrite lookup_insert_eq. specialize (Hw0 H).
      split; [discriminate|]. split; [lia|]. auto.
    + rewrite lookup_insert_ne by exact Hne. auto.
  - destruct (schema_id =? id); cbn; auto.
  - destruct (Z.eqb_spec schema_id id) as [->|Hne]; cbn.
    + rewrite lookup_insert_eq. destruct (Hd0 H) as [Hd Ht].
      split; [auto|]. split; [auto|]. split; [discriminate|].
      split; [lia|auto].
    + rewrite lookup_insert_ne by exact Hne. auto.
  - destruct (Z.eqb_spec schema_id id) as [->|Hne]; cbn.
    + rewrite lookup_insert_eq. destruct (Hd0 H) as [Hd Ht].
      split; [auto|]. split; [auto|]. split; [discriminate|].
      split; lia.
    + rewrite lookup_insert_ne by exact Hne. auto.
Qed.

(** C5 (amended).  Once the writer of an identifier is cached,
    [encode_record_with_schema_id] makes no registry call for it, and once
    its decoder function is cached, [_get_decoder_func] returns it with
    no registry call and no trial.  Across any sequence of calls on a
    fresh instance there is, for each identifier, at most one lookup that
    returned a schema on the encode path, at most one on the decode path,
    and at most one fastavro trial. *)
Theorem lookups_once_per_cache :
  (forall self schema_id record is_key writer,
     id_to_writers self !! schema_id = Some writer ->
     snd (encode_record_with_schema_id schema_id record is_key self) = self)
  /\
  (forall self payload schema_id is_key f,
     id_to_decoder_func self !! schema_id = Some f ->
     _get_decoder_func schema_id is_key (self, payload) =
       (Ok f, (self, payload)))
  /\
  (forall rc rk rv (ops : list Op) schema_id,
     let self := run_ops (init rc rk rv) ops in
     (count (is_lookup EncodePath schema_id true) (calls self) <= 1)%nat
     /\ (count (is_lookup DecodePath schema_id true) (calls self) <= 1)%nat
     /\ (count (is_trial schema_id) (calls self) <= 1)%nat).
Proof.
  split; [|split].
  - intros self schema_id record is_key writer Hw.
    rewrite (encode_cached _ _ _ _ _ Hw). reflexivity.
  - intros. now apply get_decoder_func_cached.
  - intros rc rk rv ops schema_id self.
    assert (Hinv : lookups_bounded self).
    { apply run_ops_invariant.
      - intros s op s'. apply lookups_bounded_effect.
      - apply lookups_bounded_init. }
    destruct (Hinv schema_id) as (_ & Hw & _ & Hd & Ht). auto.
Qed.

(* --------------------------------------------------------------------- *)
(* Cache entries over time                                                *)
(* --------------------------------------------------------------------- *)

Lemma effect_decoder_func_kept self op self' schema_id (f : DecoderFunc) :
  effect self op self' ->
  id_to_decoder_func self !! schema_id = Some f ->
  id_to_decoder_func self' !! schema_id = Some f.
Proof.
  intros He Hf. destruct He; count_step; auto;
    (destruct (decide (schema_id0 = schema_id)) as [->|Hne];
     [congruence | now rewrite lookup_insert_ne by exact Hne]).
Qed.

Lemma effect_writer_kept_or_refreshed self op self' schema_id (w : Schema) :
  effect self op self' ->
  id_to_writers self !! schema_id = Some w ->
  id_to_writers self' !! schema_id = Some w
  \/ exists schema record is_key,
       op = EncodeRecordWithSchema schema record is_key
       /\ id_to_writers self' !! schema_id = Some schema.
Proof.
  intros He Hw. destruct He; count_step; auto.
  - destruct (decide (schema_id0 = schema_id)) as [->|Hne].
    + right. exists schema, record, is_key.
      split; [reflexivity | apply lookup_insert_eq].
    + left. now rewrite lookup_insert_ne by exact Hne.
  - destruct (decide (schema_id0 = schema_id)) as [->|Hne];
      [congruence | left; now rewrite lookup_insert_ne by exact Hne].
Qed.

Lemma run_ops_writer_kept_or_refreshed (ops : list Op) :
  forall self schema_id (w : Schema),
    id_to_writers self !! schema_id = Some w ->
    id_to_writers (run_ops self ops) !! schema_id = Some w
    \/ exists schema record is_key,
         In (EncodeRecordWithSchema schema record is_key) ops
         /\ id_to_writers (run_ops self ops) !! schema_id = Some schema.
Proof.
  induction ops as [|op ops IH]; intros self schema_id w Hw.
  - left. exact Hw.
  - cbn [run_ops fold_left]. fold (run_ops (step self op) ops).
    destruct (effect_writer_kept_or_refreshed _ _ _ _ _
                (step_effect self op) Hw)
      as [Hkept|(schema & record & is_key & -> & Hnew)].
    + destruct (IH _ _ _ Hkept) as [H|(s & r & k & Hin & H)].
      * left. exact H.
      * right. exists s, r, k. split; [right; exact Hin | exact H].
    + right. destruct (IH _ _ _ Hnew) as [H|(s & r & k & Hin & H)].
      * exists schema, record, is_key. split; [left; reflexivity | exact H].
      * exists s, r, k. split; [right; exact Hin | exact H].
Qed.

(** One call leaves the writer of an identifier as it is, unless it is a
    call of [encode_record_with_schema] whose [register] returns that
    identifier and the identifier is not 0. *)
Lemma step_keeps_writer self schema_id (op : Op) (w : Schema) :
  id_to_writers self !! schema_id = Some w ->
  (forall schema record is_key namespace rc',
     op = EncodeRecordWithSchema schema record is_key ->
     schema_namespace schema = Some namespace ->
     register (registry_client self) (subject_of namespace schema) schema =
       (Ok (Some schema_id), rc') ->
     schema_id = 0) ->
  id_to_writers (step self op) !! schema_id = Some w.
Proof.
  intros Hw Hreg.
  destruct op as [schema record is_key|id record is_key|message is_key].
  - unfold step.
    destruct (schema_namespace schema) as [namespace|] eqn:Hns.
    2:{ unfold encode_record_with_schema. rewrite Hns. exact Hw. }
    destruct (register (registry_client self)
                (subject_of namespace schema) schema) as [r rc'] eqn:Hr.
    rewrite (encode_record_with_schema_cases _ _ _ _ _ _ _ Hns Hr).
    destruct r as [[id|]|e]; try exact Hw.
    destruct (Z.eqb_spec id 0) as [->|Hid]; [exact Hw|].
    cbn [snd put_writer id_to_writers log with_registry].
    destruct (decide (id = schema_id)) as [->|Hne].
    + exfalso. apply Hid.
      exact (Hreg schema record is_key namespace rc' eq_refl Hns Hr).
    + now rewrite lookup_insert_ne by exact Hne.
  - destruct (effect_writer_kept_or_refreshed _ _ _ _ _
                (step_effect self (EncodeRecordWithSchemaId id record is_key))
                Hw) as [H|(s & r & k & Hop & _)];
      [exact H | discriminate].
  - destruct (effect_writer_kept_or_refreshed _ _ _ _ _
                (step_effect self (DecodeMessage message is_key))
                Hw) as [H|(s & r & k & Hop & _)];
      [exact H | discriminate].
Qed.

(** C6 (amended).  An identifier has at most one writer and at most one
    decoder function at a time, and no call removes either.  The decoder
    function first bound to an identifier stays bound to it over any
    sequence of calls.  The writer cached for an identifier is not
    first-wins: a call of [encode_record_with_schema] whose [register]
    returns that identifier, the identifier not being 0, replaces it with
    the writer of the schema just registered, whatever was cached; every
    other call leaves it as it is, so that over a sequence of calls the
    writer is the first one or that of a schema registered in between. *)
Theorem cache_entries_persist self schema_id (ops : list Op) :
  (forall w1 w2 : Schema,
     id_to_writers self !! schema_id = Some w1 ->
     id_to_writers self !! schema_id = Some w2 -> w1 = w2)
  /\
  (forall f1 f2 : DecoderFunc,
     id_to_decoder_func self !! schema_id = Some f1 ->
     id_to_decoder_func self !! schema_id = Some f2 -> f1 = f2)
  /\
  (forall f : DecoderFunc,
     id_to_decoder_func self !! schema_id = Some f ->
     id_to_decoder_func (run_ops self ops) !! schema_id = Some f)
  /\
  (forall w : Schema,
     id_to_writers self !! schema_id = Some w ->
     id_to_writers (run_ops self ops) !! schema_id = Some w
     \/ exists schema record is_key,
          In (EncodeRecordWithSchema schema record is_key) ops
          /\ id_to_writers (run_ops self ops) !! schema_id = Some schema)
  /\
  (forall (schema : Schema) record is_key namespace rc',
     schema_namespace schema = Some namespace ->
     register (registry_client self) (subject_of namespace schema) schema =
       (Ok (Some schema_id), rc') ->
     schema_id <> 0 ->
     id_to_writers (step self (EncodeRecordWithSchema schema record is_key))
       !! schema_id = Some schema)
  /\
  (forall (op : Op) (w : Schema),
     id_to_writers self !! schema_id = Some w ->
     (forall schema record is_key namespace rc',
        op = EncodeRecordWithSchema schema record is_key ->
        schema_namespace schema = Some namespace ->
        register (registry_client self) (subject_of namespace schema)
          schema = (Ok (Some schema_id), rc') ->
        schema_id = 0) ->
     id_to_writers (step self op) !! schema_id = Some w).
Proof.
  split; [congruence|]. split; [congruence|].
  split; [|split; [|split]].
  - intros f Hf. revert Hf.
    apply (run_ops_invariant
             (fun s => id_to_decoder_func s !! schema_id = Some f)).
    intros s op s' Hs He. eapply effect_decoder_func_kept; eauto.
  - intros w Hw. now apply run_ops_writer_kept_or_refreshed.
  - intros schema record is_key namespace rc' Hns Hreg Hid.
    unfold step.
    rewrite (encode_record_with_schema_cases _ _ _ _ _ _ _ Hns Hreg).
    apply Z.eqb_neq in Hid. rewrite Hid. apply lookup_insert_eq.
  - intros op w. apply step_keeps_writer.
Qed.

(* --------------------------------------------------------------------- *)
(* Round trip                                                             *)
(* --------------------------------------------------------------------- *)

(** What [encode_record_with_schema_id] returns when the writer of the
    identifier is that of [S]. *)
Lemma encode_writes_with self schema_id record is_key (S : Schema) :
  writes_with self schema_id S ->
  fst (encode_record_with_schema_id schema_id record is_key self) =
    envelope schema_id (DatumWriter_write S record).
Proof.
  unfold writes_with. intros H.
  destruct (id_to_writers self !! schema_id) as [w|] eqn:Hw.
  - subst w. rewrite (encode_cached _ _ _ _ _ Hw). reflexivity.
  - destruct (get_by_id (registry_client self) schema_id) as [r rc'] eqn:Hg.
    cbn in H. subst r.
    rewrite (encode_uncached_found _ _ _ _ _ _ Hw Hg). reflexivity.
Qed.

(** A message of more than 5 bytes that starts with 0x00: the header is
    read, the decoder function of its identifier is resolved and run on
    the payload stream, which stands at offset 5. *)
Lemma decode_message_framed self is_key b3 b2 b1 b0 b rest :
  let message := x00 :: b3 :: b2 :: b1 :: b0 :: b :: rest in
  decode_message (Some message) is_key self =
    match _get_decoder_func (big_endian [b3; b2; b1; b0]) is_key
            (self, mkBytesIO message 5) with
    | (Ok f, st) =>
        match call_decoder_func f st with
        | (Ok datum, st') => (Ok (Some datum), fst st')
        | (Raise e, st') => (Raise e, fst st')
        end
    | (Raise e, st) => (Raise e, fst st)
    end.
Proof.
  intros message. unfold decode_message.
  change (length message <=? 5)%nat with false.
  unfold with_payload, bind, payload_read, lift, ret.
  cbv beta iota delta [fst snd].
  change (bytesio_read (mkBytesIO message 0) 5)
    with ([x00; b3; b2; b1; b0], mkBytesIO message 5).
  cbv beta iota.
  rewrite struct_unpack_bI_big_endian, Z_of_byte_x00.
  change (negb ((if 0 <? 128 then 0 else 0 - 256) =? MAGIC_BYTE)) with false.
  cbv beta iota.
  destruct (_get_decoder_func _ is_key (self, mkBytesIO message 5))
    as [[f|e] st]; [|reflexivity].
  destruct (call_decoder_func f st) as [[d|e] st']; reflexivity.
Qed.

(** Under [reads_with], resolution returns a decoder function with writer
    and reader schema [S] and leaves the payload stream as it was. *)
Lemma get_decoder_func_reads_with self payload schema_id is_key
    (S : Schema) :
  reads_with self schema_id is_key S ->
  exists f self',
    _get_decoder_func schema_id is_key (self, payload) =
      (Ok f, (self', payload))
    /\ (f = SlowDecoder S (Some S)
        \/ f = FastDecoder (to_json S) (to_json S)).
Proof.
  unfold reads_with. intros H.
  destruct (id_to_decoder_func self !! schema_id) as [f|] eqn:Hf.
  - exists f, self. split; [now apply get_decoder_func_cached | exact H].
  - destruct H as [Hg Hrd].
    destruct (get_by_id (registry_client self) schema_id) as [r rc'] eqn:Hg'.
    cbn in Hg. subst r.
    rewrite (get_decoder_func_resolved _ payload _ is_key _ _ Hf Hg').
    rewrite Hrd. cbv zeta.
    destruct HAS_FAST; [destruct (is_Ok _)|];
      do 2 eexists; (split; [reflexivity|]); auto.
Qed.

Lemma call_decoder_func_reads self payload (f : DecoderFunc) (S : Schema)
    record :
  f = SlowDecoder S (Some S) \/ f = FastDecoder (to_json S) (to_json S) ->
  fst (DatumReader_read S (Some S) (remaining payload)) = Ok record ->
  fst (schemaless_reader (remaining payload) (to_json S)
         (Some (to_json S))) = Ok record ->
  exists st, call_decoder_func f (self, payload) = (Ok record, st).
Proof.
  intros [->| ->] Hslow Hfast; unfold call_decoder_func, payload_decode;
    cbv beta iota delta [fst snd].
  - destruct (DatumReader_read S (Some S) (remaining payload)) as [r n].
    cbn in Hslow. subst r. eexists. reflexivity.
  - destruct (schemaless_reader (remaining payload) (to_json S)
                (Some (to_json S))) as [r n].
    cbn in Hfast. subst r. eexists. reflexivity.
Qed.

(** X1.  Round trip, for a body that is not empty.  When the identifier is an
    unsigned 32-bit integer whose writer is that of [S], the writer
    accepts [record] with a non-empty body that both readers invert, and
    the decoding instance reads the identifier with writer schema and
    reader schema [S], then [decode_message] gives [record] back from what
    [encode_record_with_schema_id] returned. *)
Lemma round_trip_nonempty_body
    (enc dec : MessageSerializer) schema_id record is_key_enc is_key
    (S : Schema) body :
  0 <= schema_id < 2 ^ 32 ->
  writes_with enc schema_id S ->
  readers_invert_writer S record body ->
  body <> [] ->
  reads_with dec schema_id is_key S ->
  exists message,
    fst (encode_record_with_schema_id schema_id record is_key_enc enc) =
      Ok message
    /\ fst (decode_message (Some message) is_key dec) = Ok (Some record).
Proof.
  intros Hid Hw (Hbody & Hslow & Hfast) Hne Hr.
  rewrite (encode_writes_with _ _ _ _ _ Hw), Hbody. unfold envelope.
  destruct (struct_pack_I_spec schema_id Hid) as (b3 & b2 & b1 & b0 & E & V).
  rewrite E. eexists. split; [reflexivity|].
  destruct body as [|b rest]; [congruence|].
  cbn [app]. rewrite decode_message_framed, V.
  set (payload := mkBytesIO _ 5).
  destruct (get_decoder_func_reads_with dec payload _ _ _ Hr)
    as (f & dec' & Eg & Hf).
  rewrite Eg.
  destruct (call_decoder_func_reads dec' payload f S record Hf Hslow Hfast)
    as (st & Ec).
  rewrite Ec. reflexivity.
Qed.

(** With an empty body the same call sequence stops at the length test:
    what [encode_record_with_schema_id] returned is refused by
    [decode_message]. *)
Lemma round_trip_empty_body
    (enc dec : MessageSerializer) schema_id record is_key_enc is_key
    (S : Schema) :
  0 <= schema_id < 2 ^ 32 ->
  writes_with enc schema_id S ->
  DatumWriter_write S record = Ok [] ->
  exists message,
    fst (encode_record_with_schema_id schema_id record is_key_enc enc) =
      Ok message
    /\ length message = 5%nat
    /\ decode_message (Some message) is_key dec =
         (Raise (SerializerError "message is too small to decode"), dec).
Proof.
  intros Hid Hw Hbody.
  rewrite (encode_writes_with _ _ _ _ _ Hw), Hbody. unfold envelope.
  destruct (struct_pack_I_spec schema_id Hid) as (b3 & b2 & b1 & b0 & E & V).
  rewrite E. eexists. split; [reflexivity|]. split; [reflexivity|].
  apply decode_message_too_small. cbn. lia.
Qed.

End Properties.

(* ===================================================================== *)
(* The serializer on the test doubles                                     *)
(* ===================================================================== *)

Module Examples.

Import Mock.

#[local] Existing Instance fast.

(** The scenario of the specification: [alice] under identifier 7. *)
Example encode_alice :
  fst (encode_record_with_schema_id 7 alice false fresh) = Ok alice_message.
Proof. vm_compute. reflexivity. Qed.

Example decode_alice :
  fst (decode_message (Some alice_message) false fresh) = Ok (Some alice).
Proof. vm_compute. reflexivity. Qed.

Example decode_none :
  decode_message None false fresh = (Ok None, fresh).
Proof. reflexivity. Qed.

(** C1 (what the code does).  A record of [ping_schema] is valid and its
    Avro body is empty: [encode_record_with_schema_id] returns the 5-byte
    envelope, and [decode_message], on the same instance and with
    [ping_schema] as writer and reader schema, refuses those bytes as too
    small instead of returning the record. *)
Theorem round_trip_breaks_on_empty_body :
  let self := @init fast registry7 None (Some ping_schema) in
  let encoded := encode_record_with_schema_id 8 [] false self in
  fst encoded = Ok ping_message
  /\ fst (decode_message (Some ping_message) false (snd encoded)) =
       Raise (SerializerError "message is too small to decode")
  /\ DatumReader_read ping_schema (Some ping_schema) [] = (Ok [], 0%nat).
Proof. vm_compute. repeat split. Qed.

(** X1 at [alice] and identifier 7. *)
Lemma round_trip_nonempty_body_witness :
  exists message,
    fst (encode_record_with_schema_id 7 alice false fresh) = Ok message
    /\ fst (decode_message (Some message) false fresh) = Ok (Some alice).
Proof.
  apply (round_trip_nonempty_body fresh fresh 7 alice false false
           user_schema (skipn 5 alice_message)).
  - lia.
  - reflexivity.
  - repeat split.
  - discriminate.
  - split; reflexivity.
Defined.

(** C2 at [alice] and identifier 7, the writer being cached. *)
Lemma encode_record_with_schema_id_layout_witness :
  let self := put_writer 7 user_schema fresh in
  id_to_writers self !! 7 = Some user_schema
  /\ exists ident,
       encode_record_with_schema_id 7 alice false self =
         (Ok (x00 :: ident ++ skipn 5 alice_message)%list, self)
       /\ length ident = 4%nat /\ big_endian ident = 7.
Proof.
  intros self.
  assert (Hw : id_to_writers self !! 7 = Some user_schema) by reflexivity.
  split; [exact Hw|].
  destruct (encode_record_with_schema_id_layout self 7 alice false
              user_schema Hw) as [Hreturns _].
  destruct (Hreturns (skipn 5 alice_message)) as (ident & E & L & V & _).
  - lia.
  - reflexivity.
  - exists ident. auto.
Defined.

(** C3 at a 6-byte message whose first byte is 0x01. *)
Lemma decode_message_framing_rejection_witness :
  let message := [x01; x00; x00; x00; x07; x02] in
  ((length message < 5)%nat
   \/ ((5 <= length message)%nat /\ hd x00 message <> x00))
  /\ exists msg,
       forall (self : @MessageSerializer fast) is_key,
         decode_message (Some message) is_key self =
           (Raise (SerializerError msg), self).
Proof.
  intros message.
  assert (H : (length message < 5)%nat
              \/ ((5 <= length message)%nat /\ hd x00 message <> x00)).
  { right. split; [cbn; lia | discriminate]. }
  split; [exact H|].
  exact (decode_message_framing_rejection message H).
Defined.

(** C7 on the payload of [alice_message]: the trial returns and the fast
    decoder is bound. *)
Lemma get_decoder_func_trial_is_silent_witness :
  let payload := mkBytesIO alice_message 5 in
  @HAS_FAST fast = true
  /\ id_to_decoder_func fresh !! 7 = None
  /\ get_by_id (registry_client fresh) 7 = (Ok (Some user_schema), registry7)
  /\ exists f self',
       _get_decoder_func 7 false (fresh, payload) = (Ok f, (self', payload))
       /\ id_to_decoder_func self' !! 7 = Some f.
Proof.
  intros payload.
  assert (H1 : @HAS_FAST fast = true) by reflexivity.
  assert (H2 : id_to_decoder_func fresh !! 7 = None) by reflexivity.
  assert (H3 : get_by_id (registry_client fresh) 7 =
               (Ok (Some user_schema), registry7)) by reflexivity.
  split; [exact H1 | split; [exact H2 | split; [exact H3|]]].
  destruct (get_decoder_func_trial_is_silent fresh payload 7 false
              user_schema registry7 H1 H2 H3) as (f & self' & E & Hf & _).
  exists f, self'. auto.
Defined.

(** C9 on a serializer without reader schemas. *)
Lemma get_decoder_func_unset_reader_binds_slow_witness :
  let self := @init fast registry7 None None in
  let payload := mkBytesIO alice_message 5 in
  id_to_decoder_func self !! 7 = None
  /\ get_by_id (registry_client self) 7 = (Ok (Some user_schema), registry7)
  /\ (if false then reader_key_schema self else reader_value_schema self)
       = None
  /\ exists self',
       _get_decoder_func 7 false (self, payload) =
         (Ok (SlowDecoder user_schema None), (self', payload))
       /\ calls self' = CallGetById DecodePath 7 true :: calls self.
Proof.
  intros self payload.
  assert (H1 : id_to_decoder_func self !! 7 = None) by reflexivity.
  assert (H2 : get_by_id (registry_client self) 7 =
               (Ok (Some user_schema), registry7)) by reflexivity.
  assert (H3 : (if false then reader_key_schema self
                else reader_value_schema self) = None) by reflexivity.
  split; [exact H1 | split; [exact H2 | split; [exact H3|]]].
  destruct (get_decoder_func_unset_reader_binds_slow self payload 7 false
              user_schema registry7 H1 H2 H3) as (self' & E & _ & Hc & _).
  exists self'. auto.
Defined.

(** C10 on a registry that numbers its first schema 0. *)
Lemma encode_record_with_schema_zero_id_is_absent_witness :
  let self := @init fast registry0 None None in
  let rc' := mkRegistry [(0, user_schema)] 1 0 in
  schema_namespace user_schema = Some "test"
  /\ register (registry_client self) (subject_of "test" user_schema)
       user_schema = (Ok (Some 0), rc')
  /\ encode_record_with_schema user_schema alice true self =
       (Raise (KeySerializerError
                 "Unable to retrieve schema id for subject test.User"),
        log (CallRegister "test.User") (with_registry rc' self)).
Proof.
  intros self rc'.
  assert (H1 : schema_namespace user_schema = Some "test") by reflexivity.
  assert (H2 : register (registry_client self)
                 (subject_of "test" user_schema) user_schema =
               (Ok (Some 0), rc')) by reflexivity.
  split; [exact H1 | split; [exact H2|]].
  destruct (encode_record_with_schema_zero_id_is_absent self user_schema
              alice true "test" (Some 0) rc' H1 H2) as [Hzero _].
  destruct Hzero as (E & _); [left; reflexivity|].
  exact E.
Defined.

(** C5 (as stated) fails.  Encoding under identifier 7 and then decoding
    the result asks the registry for 7 twice, once for each cache, and
    both lookups return the schema; and encoding twice under an
    identifier the registry does not know asks for it twice. *)
Lemma lookup_by_id_repeated_for_one_identifier :
  let round_trip :=
    run_ops fresh [EncodeRecordWithSchemaId 7 alice false;
                   DecodeMessage (Some alice_message) false] in
  let retried :=
    run_ops fresh [EncodeRecordWithSchemaId 99 alice false;
                   EncodeRecordWithSchemaId 99 alice false] in
  ~ (count (is_any_lookup 7) (calls round_trip) <= 1)%nat
  /\ calls round_trip =
       [FastTrial 7; CallGetById DecodePath 7 true;
        CallGetById EncodePath 7 true]
  /\ ~ (count (is_any_lookup 99) (calls retried) <= 1)%nat
  /\ calls retried =
       [CallGetById EncodePath 99 false; CallGetById EncodePath 99 false].
Proof.
  vm_compute. repeat split; lia.
Qed.

(** C6 (as stated) fails.  The writer cached for 7 by
    [encode_record_with_schema_id] is that of the schema the registry
    holds; [encode_record_with_schema] of the same schema with a doc
    attribute obtains 7 from [register] and replaces it. *)
Lemma first_writer_is_replaced :
  let first := step fresh (EncodeRecordWithSchemaId 7 alice false) in
  let later :=
    step first (EncodeRecordWithSchema user_schema_documented alice false) in
  id_to_writers first !! 7 = Some user_schema
  /\ id_to_writers later !! 7 = Some user_schema_documented
  /\ id_to_writers later !! 7 <> id_to_writers first !! 7.
Proof.
  vm_compute. repeat split. discriminate.
Qed.

(** A trial that raises: fastavro knows no uuid, the slow decoder is
    bound and the message is decoded all the same. *)
Example decode_ticket :
  let message := [x00; x00; x00; x00; x0a; x02; x37] in
  let self := @init fast registry7 None (Some ticket_schema) in
  let decoded := decode_message (Some message) false self in
  fst decoded = Ok (Some [("id", VStr "7")])
  /\ id_to_decoder_func (snd decoded) !! 10 =
       Some (SlowDecoder ticket_schema (Some ticket_schema))
  /\ calls (snd decoded) = [FastTrial 10; CallGetById DecodePath 10 true].
Proof. repeat split; reflexivity. Qed.

(** A registry outage: the lookup fails, nothing is cached, and the next
    call asks again and succeeds. *)
Example encode_after_outage :
  let self := @init fast (mkRegistry (reg_schemas registry7) 11 1) None None in
  let failed := encode_record_with_schema_id 7 alice false self in
  let retried := encode_record_with_schema_id 7 alice false (snd failed) in
  is_Ok (fst failed) = false
  /\ id_to_writers (snd failed) = id_to_writers self
  /\ fst retried = Ok alice_message
  /\ calls (snd retried) =
       [CallGetById EncodePath 7 true; CallGetById EncodePath 7 false].
Proof. repeat split; reflexivity. Qed.

End Examples.

(* ===================================================================== *)
(* Further properties of the serializer                                   *)
(* ===================================================================== *)

Section Further.

Context `{C : Collaborators}.

Implicit Types (self : MessageSerializer) (record : Datum) (schema_id : Z)
  (is_key : bool) (payload : BytesIO).

(** The instance after [encode_record_with_schema_id] when the writer of
    the identifier is that of [S]: the writer is cached, whatever the
    call returned. *)
Lemma encode_writes_with_caches self schema_id record is_key (S : Schema) :
  writes_with self schema_id S ->
  id_to_writers (snd (encode_record_with_schema_id schema_id record is_key
                        self)) !! schema_id = Some S.
Proof.
  unfold writes_with. intros H.
  destruct (id_to_writers self !! schema_id) as [w|] eqn:Hw.
  - subst w. rewrite (encode_cached _ _ _ _ _ Hw). exact Hw.
  - destruct (get_by_id (registry_client self) schema_id) as [r rc'] eqn:Hg.
    simpl in H. subst r.
    rewrite (encode_uncached_found _ _ _ _ _ _ Hw Hg).
    apply lookup_insert_eq.
Qed.

(** Whatever bytes [encode_record_with_schema_id] returns are an envelope
    for the identifier it was given. *)
Lemma encode_ok_layout self schema_id record is_key message :
  fst (encode_record_with_schema_id schema_id record is_key self) =
    Ok message ->
  exists b3 b2 b1 b0 body,
    message = x00 :: b3 :: b2 :: b1 :: b0 :: body
    /\ big_endian [b3; b2; b1; b0] = schema_id.
Proof.
  intros H.
  assert (Henv : exists w,
            fst (encode_record_with_schema_id schema_id record is_key self) =
              envelope schema_id (DatumWriter_write w record)).
  { destruct (id_to_writers self !! schema_id) as [w|] eqn:Hw.
    - exists w. now rewrite (encode_cached _ _ _ _ _ Hw).
    - destruct (get_by_id (registry_client self) schema_id)
        as [r rc'] eqn:Hg.
      destruct (returned_schema r) eqn:Hr.
      + destruct r as [[w|]|e]; try discriminate.
        exists w. now rewrite (encode_uncached_found _ _ _ _ _ _ Hw Hg).
      + rewrite (encode_uncached_failed _ _ _ _ _ _ Hw Hg Hr) in H.
        discriminate. }
  destruct Henv as [w Henv]. rewrite Henv in H. unfold envelope in H.
  destruct (struct_pack_I schema_id) as [ident|] eqn:E; [|discriminate].
  destruct (DatumWriter_write w record) as [body|]; [|discriminate].
  destruct (struct_pack_I_inv _ _ E) as (Hid & _ & _).
  destruct (struct_pack_I_spec _ Hid) as (b3 & b2 & b1 & b0 & E' & V).
  rewrite E' in E. inversion E; subst ident.
  inversion H. exists b3, b2, b1, b0, body. auto.
Qed.

(** The instance [decode_message] leaves behind for a message with a good
    header is the one decoder resolution leaves: running the decoder
    function changes the payload stream only. *)
Lemma decode_message_framed_state self is_key b3 b2 b1 b0 b rest :
  let message := x00 :: b3 :: b2 :: b1 :: b0 :: b :: rest in
  snd (decode_message (Some message) is_key self) =
    fst (snd (_get_decoder_func (big_endian [b3; b2; b1; b0]) is_key
                (self, mkBytesIO message 5))).
Proof.
  intros message. unfold message. rewrite decode_message_framed.
  destruct (_get_decoder_func _ is_key _) as [[f|e] st]; [|reflexivity].
  pose proof (call_decoder_func_self f st) as Hc.
  destruct (call_decoder_func f st) as [[d|e] [self' p']];
    simpl in Hc; subst self'; reflexivity.
Qed.

(** X2.  Decoding what [encode_record_with_schema_id] returned, on an
    instance that has no decoder function for the identifier yet, asks the
    registry for exactly the identifier that was encoded: the four header
    bytes carry it through. *)
Theorem decode_looks_up_the_encoded_id
    (enc dec : MessageSerializer) schema_id record is_key_enc is_key
    message :
  fst (encode_record_with_schema_id schema_id record is_key_enc enc) =
    Ok message ->
  (5 < length message)%nat ->
  id_to_decoder_func dec !! schema_id = None ->
  exists found trial,
    calls (snd (decode_message (Some message) is_key dec)) =
      (trial ++ CallGetById DecodePath schema_id found :: calls dec)%list.
Proof.
  intros Henc Hlen Hf.
  destruct (encode_ok_layout _ _ _ _ _ Henc)
    as (b3 & b2 & b1 & b0 & body & -> & V).
  destruct body as [|b rest]; [cbn in Hlen; lia|].
  rewrite decode_message_framed_state, V.
  now apply get_decoder_func_uncached_asks.
Qed.

(** X3.  [is_key] only chooses the class of the exception on the encode
    path: the instance afterwards and the bytes returned are the same for
    keys and for values. *)
Theorem encode_is_key_only_names_the_error self schema_id record :
  snd (encode_record_with_schema_id schema_id record true self) =
    snd (encode_record_with_schema_id schema_id record false self)
  /\ (forall message,
        fst (encode_record_with_schema_id schema_id record true self) =
          Ok message
        <-> fst (encode_record_with_schema_id schema_id record false self) =
              Ok message)
  /\ (forall e,
        fst (encode_record_with_schema_id schema_id record true self) =
          Raise e ->
        fst (encode_record_with_schema_id schema_id record false self) =
          Raise e
        \/ exists msg, e = KeySerializerError msg
             /\ fst (encode_record_with_schema_id schema_id record false
                       self) = Raise (ValueSerializerError msg)).
Proof.
  destruct (id_to_writers self !! schema_id) as [w|] eqn:Hw.
  - rewrite !(encode_cached _ _ _ _ _ Hw). cbn [fst snd].
    split; [reflexivity|]. split; [tauto | auto].
  - destruct (get_by_id (registry_client self) schema_id) as [r rc'] eqn:Hg.
    destruct (returned_schema r) eqn:Hr.
    + destruct r as [[w|]|e]; try discriminate.
      rewrite !(encode_uncached_found _ _ _ _ _ _ Hw Hg). cbn [fst snd].
      split; [reflexivity|]. split; [tauto | auto].
    + rewrite !(encode_uncached_failed _ _ _ _ _ _ Hw Hg Hr). cbn [fst snd].
      split; [reflexivity|]. split; [split; discriminate|].
      intros e He. inversion He; subst e. clear He.
      destruct r as [[w|]|e0]; cbn in *; try discriminate.
      * right. eexists. split; reflexivity.
      * destruct (is_ClientError e0); [right; eexists; split; reflexivity|].
        left. reflexivity.
Qed.

(** A fresh resolution returns a decoder function bound with the reader
    schema of the role at hand, caches it and gives the payload stream
    back as it was. *)
Lemma get_decoder_func_binds
    self payload schema_id is_key writer_schema_obj rc' :
  id_to_decoder_func self !! schema_id = None ->
  get_by_id (registry_client self) schema_id =
    (Ok (Some writer_schema_obj), rc') ->
  exists f self',
    _get_decoder_func schema_id is_key (self, payload) =
      (Ok f, (self', payload))
    /\ bound_with f writer_schema_obj
         (if is_key then reader_key_schema self else reader_value_schema self)
    /\ id_to_decoder_func self' !! schema_id = Some f.
Proof.
  intros Hf Hg.
  rewrite (get_decoder_func_resolved _ payload _ is_key _ _ Hf Hg).
  cbv zeta.
  destruct (if is_key then reader_key_schema self
            else reader_value_schema self) as [r|];
    [destruct HAS_FAST; [destruct (is_Ok _)|]|];
    do 2 eexists; (split; [reflexivity|]);
    (split; [unfold bound_with; eauto | apply lookup_insert_eq]).
Qed.

(** X4.  The decoder cache is keyed by the identifier alone.  The function
    bound at the first resolution carries the reader schema of the role
    (key or value) of that call, and every later resolution of the
    identifier returns that same function, for keys and for values
    alike. *)
Theorem decoder_func_is_shared_by_keys_and_values
    self payload schema_id is_key writer_schema_obj rc' :
  id_to_decoder_func self !! schema_id = None ->
  get_by_id (registry_client self) schema_id =
    (Ok (Some writer_schema_obj), rc') ->
  exists f self',
    _get_decoder_func schema_id is_key (self, payload) =
      (Ok f, (self', payload))
    /\ bound_with f writer_schema_obj
         (if is_key then reader_key_schema self else reader_value_schema self)
    /\ forall is_key' payload',
         _get_decoder_func schema_id is_key' (self', payload') =
           (Ok f, (self', payload')).
Proof.
  intros Hf Hg.
  destruct (get_decoder_func_binds self payload schema_id is_key
              writer_schema_obj rc' Hf Hg) as (f & self' & E & Hb & Hc).
  exists f, self'. split; [exact E|]. split; [exact Hb|].
  intros. now apply get_decoder_func_cached.
Qed.

(** X5.  An identifier that does not fit the four header bytes makes
    [encode_record_with_schema_id] raise [struct.error] instead of
    returning a truncated header (from 2^32 up to 2^64 with the message
    of the range check of the format); the writer it resolved on the way
    stays cached. *)
Theorem encode_refuses_id_out_of_range
    self schema_id record is_key (S : Schema) :
  writes_with self schema_id S ->
  ~ (0 <= schema_id < 2 ^ 32) ->
  (exists msg,
     fst (encode_record_with_schema_id schema_id record is_key self) =
       Raise (StructError msg)
     /\ (2 ^ 32 <= schema_id < 2 ^ 64 ->
          msg = "'I' format requires 0 <= number <= 4294967295"))
  /\ id_to_writers (snd (encode_record_with_schema_id schema_id record
                           is_key self)) !! schema_id = Some S.
Proof.
  intros Hw Hid. split; [|now apply encode_writes_with_caches].
  rewrite (encode_writes_with _ _ _ _ _ Hw). unfold envelope, struct_pack_I.
  destruct ((0 <=? schema_id) && (schema_id <? 2 ^ 32)) eqn:E.
  { apply andb_prop in E as [E1 E2].
    apply Z.leb_le in E1. apply Z.ltb_lt in E2. lia. }
  destruct ((2 ^ 32 <=? schema_id) && (schema_id <? 2 ^ 64)) eqn:E'.
  - eexists. split; reflexivity.
  - eexists. split; [reflexivity|]. intros [H1 H2].
    apply andb_false_iff in E' as [E'|E'].
    + apply Z.leb_gt in E'. lia.
    + apply Z.ltb_ge in E'. lia.
Qed.

(** X6.  A record the writer refuses makes [encode_record_with_schema_id]
    raise the writer's own exception, unwrapped; the writer stays cached,
    so the next call for the identifier makes no registry call. *)
Theorem encode_passes_on_writer_error
    self schema_id record is_key (S : Schema) e :
  writes_with self schema_id S ->
  0 <= schema_id < 2 ^ 32 ->
  DatumWriter_write S record = Raise e ->
  let failed := encode_record_with_schema_id schema_id record is_key self in
  fst failed = Raise e
  /\ forall record' is_key',
       snd (encode_record_with_schema_id schema_id record' is_key'
              (snd failed)) = snd failed.
Proof.
  intros Hw Hid He failed. subst failed. split.
  - rewrite (encode_writes_with _ _ _ _ _ Hw), He. unfold envelope.
    destruct (struct_pack_I_spec _ Hid) as (b3 & b2 & b1 & b0 & E & _).
    rewrite E. reflexivity.
  - intros record' is_key'.
    pose proof (encode_writes_with_caches _ _ record is_key _ Hw) as Hc.
    rewrite (encode_cached _ _ _ _ _ Hc). reflexivity.
Qed.

(** X7.  How a failed lookup surfaces on the encode path, for an
    identifier whose writer is not cached: a [ClientError] of the registry
    becomes a [KeySerializerError] or [ValueSerializerError] (by [is_key])
    that carries the formatted traceback, a missing schema becomes one
    that says "Schema does not exist", and any other exception of the
    registry client passes through as it is. *)
Theorem encode_lookup_errors self schema_id record is_key r rc' :
  id_to_writers self !! schema_id = None ->
  get_by_id (registry_client self) schema_id = (r, rc') ->
  let result :=
    fst (encode_record_with_schema_id schema_id record is_key self) in
  let error := if is_key then KeySerializerError else ValueSerializerError in
  (r = Ok None -> result = Raise (error "Schema does not exist"))
  /\ (forall msg, r = Raise (ClientError msg) ->
        result = Raise (error (format_exception (ClientError msg))))
  /\ (forall e, r = Raise e -> is_ClientError e = false ->
        result = Raise e).
Proof.
  intros Hw Hg result error. subst result error.
  split; [|split].
  - intros ->. now rewrite (encode_uncached_failed _ _ _ _ _ _ Hw Hg).
  - intros msg ->. now rewrite (encode_uncached_failed _ _ _ _ _ _ Hw Hg).
  - intros e -> He.
    rewrite (encode_uncached_failed _ _ _ _ _ _ Hw Hg); [|reflexivity].
    cbn. rewrite He. reflexivity.
Qed.

(** X8.  How a failed lookup surfaces in [decode_message], for a message
    with a good header whose identifier has no decoder function yet: a
    [ClientError] and a missing schema both become a [SerializerError]
    that names the identifier (and, for the former, the registry's
    message); any other exception passes through as it is.  Nothing is
    cached. *)
Theorem decode_lookup_errors self is_key b3 b2 b1 b0 b rest r rc' :
  let message := x00 :: b3 :: b2 :: b1 :: b0 :: b :: rest in
  let schema_id := big_endian [b3; b2; b1; b0] in
  id_to_decoder_func self !! schema_id = None ->
  get_by_id (registry_client self) schema_id = (r, rc') ->
  let decoded := decode_message (Some message) is_key self in
  (r = Ok None ->
     fst decoded = Raise (SerializerError
       ("unable to fetch schema with id " ++ percent_d schema_id)))
  /\ (forall msg, r = Raise (ClientError msg) ->
        fst decoded = Raise (SerializerError
          ("unable to fetch schema with id " ++ percent_d schema_id
           ++ ": " ++ msg)))
  /\ (forall e, r = Raise e -> is_ClientError e = false ->
        fst decoded = Raise e)
  /\ (returned_schema r = false ->
        id_to_decoder_func (snd decoded) = id_to_decoder_func self
        /\ id_to_writers (snd decoded) = id_to_writers self).
Proof.
  intros message schema_id Hf Hg decoded. subst decoded message.
  assert (Hfail : returned_schema r = false ->
            decode_message
              (Some (x00 :: b3 :: b2 :: b1 :: b0 :: b :: rest)) is_key self =
            (Raise (decode_lookup_error schema_id r),
             log (CallGetById DecodePath schema_id false)
               (with_registry rc' self))).
  { intros Hr. rewrite decode_message_framed. fold schema_id.
    now rewrite (get_decoder_func_failed _ _ _ is_key _ _ Hf Hg Hr). }
  split; [|split; [|split]].
  - intros ->. now rewrite Hfail.
  - intros msg ->. now rewrite Hfail.
  - intros e -> He. rewrite Hfail; [|reflexivity]. cbn. now rewrite He.
  - intros Hr. rewrite (Hfail Hr). split; reflexivity.
Qed.

(** X9.  A decoder function is cached as soon as it is resolved, before
    the payload is decoded: even when decoding the payload then raises,
    the identifier stays bound, and decoding the same message again
    leaves the instance as it is (no registry call, no trial). *)
Theorem decoder_func_cached_before_payload_is_read
    self is_key b3 b2 b1 b0 b rest writer_schema_obj rc' :
  let message := x00 :: b3 :: b2 :: b1 :: b0 :: b :: rest in
  let schema_id := big_endian [b3; b2; b1; b0] in
  id_to_decoder_func self !! schema_id = None ->
  get_by_id (registry_client self) schema_id =
    (Ok (Some writer_schema_obj), rc') ->
  let self' := snd (decode_message (Some message) is_key self) in
  is_Some (id_to_decoder_func self' !! schema_id)
  /\ forall is_key',
       snd (decode_message (Some message) is_key' self') = self'.
Proof.
  intros message schema_id Hf Hg self'. subst self' message.
  rewrite decode_message_framed_state. fold schema_id.
  destruct (get_decoder_func_binds self
              (mkBytesIO (x00 :: b3 :: b2 :: b1 :: b0 :: b :: rest) 5)
              schema_id is_key writer_schema_obj rc' Hf Hg)
    as (f & s' & E & _ & Hc).
  rewrite E. cbn [fst snd].
  split; [rewrite Hc; eauto|].
  intros is_key'. rewrite decode_message_framed_state. fold schema_id.
  now rewrite (get_decoder_func_cached _ _ _ _ _ Hc).
Qed.

(** X10.  With the decoder function of its identifier cached, a message
    with a good header is decoded without any registry call or trial: the
    result is what the cached function makes of the bytes from offset 5
    on, its exception included, and the instance is left as it is. *)
Theorem decode_cached_reads_from_offset_5
    self is_key b3 b2 b1 b0 b rest (f : DecoderFunc) :
  let message := x00 :: b3 :: b2 :: b1 :: b0 :: b :: rest in
  id_to_decoder_func self !! big_endian [b3; b2; b1; b0] = Some f ->
  decode_message (Some message) is_key self =
    (match run_decoder_func f (b :: rest) with
     | Ok datum => Ok (Some datum)
     | Raise e => Raise e
     end, self).
Proof.
  intros message Hf. unfold message.
  rewrite decode_message_framed.
  rewrite (get_decoder_func_cached _ _ _ _ _ Hf).
  destruct f as [w r|w r];
    unfold call_decoder_func, payload_decode, run_decoder_func, remaining;
    cbv beta iota fix delta [fst snd tell getvalue skipn].
  - destruct (schemaless_reader (b :: rest) w (Some r)) as [[d|e] n];
      reflexivity.
  - destruct (DatumReader_read w r (b :: rest)) as [[d|e] n]; reflexivity.
Qed.

Lemma effect_keeps_other_cache self (op : Op) self' :
  effect self op self' ->
  (is_encode_op op = true ->
     id_to_decoder_func self' = id_to_decoder_func self)
  /\ (is_encode_op op = false -> id_to_writers self' = id_to_writers self).
Proof.
  intros He. destruct He; split; intros Hop;
    try reflexivity; discriminate.
Qed.

(** X11.  The two caches are independent: no sequence of encode calls
    changes the decoder cache, and no sequence of [decode_message] calls
    changes the writer cache. *)
Theorem encode_and_decode_keep_to_their_cache self (ops : list Op) :
  (forallb is_encode_op ops = true ->
     id_to_decoder_func (run_ops self ops) = id_to_decoder_func self)
  /\ (forallb (fun op => negb (is_encode_op op)) ops = true ->
        id_to_writers (run_ops self ops) = id_to_writers self).
Proof.
  revert self. induction ops as [|op ops IH]; intros self.
  - split; reflexivity.
  - cbn [forallb run_ops fold_left]. fold (run_ops (step self op) ops).
    destruct (effect_keeps_other_cache _ _ _ (step_effect self op))
      as [Henc Hdec].
    destruct (IH (step self op)) as [IHenc IHdec].
    split; intros H; apply andb_prop in H as [H1 H2].
    + rewrite (IHenc H2). now apply Henc.
    + rewrite (IHdec H2). apply Hdec.
      now destruct (is_encode_op op).
Qed.

Lemma effect_keeps_reader_schemas self (op : Op) self' :
  effect self op self' ->
  reader_key_schema self' = reader_key_schema self
  /\ reader_value_schema self' = reader_value_schema self.
Proof. intros He. destruct He; split; reflexivity. Qed.

(** X12.  The reader schemas given to the constructor are never changed:
    after any sequence of calls, of which any may have raised, they are
    the ones [__init__] received. *)
Theorem reader_schemas_are_fixed rc rk rv (ops : list Op) :
  reader_key_schema (run_ops (init rc rk rv) ops) = rk
  /\ reader_value_schema (run_ops (init rc rk rv) ops) = rv.
Proof.
  apply (run_ops_invariant
           (fun s => reader_key_schema s = rk /\ reader_value_schema s = rv)).
  - intros s op s' [Hk Hv] He.
    destruct (effect_keeps_reader_schemas _ _ _ He) as [Hk' Hv'].
    split; congruence.
  - split; reflexivity.
Qed.

(** X13.  A public call makes at most one call to the registry client,
    whether it returns or raises. *)
Theorem at_most_one_registry_call_per_call self (op : Op) :
  (count is_registry_call (calls self)
     <= count is_registry_call (calls (step self op))
     <= S (count is_registry_call (calls self)))%nat.
Proof.
  destruct (step_effect self op); cbn; lia.
Qed.

(** X14.  [encode_record_with_schema] never calls [get_by_id].  For a
    schema without namespace it raises [TypeError] before any registry
    call; for one with a namespace it makes exactly one registry call,
    [register], whatever that returns.  When [register] returns a nonzero
    identifier, the result is the envelope made with the schema it was
    given (or the exception of [struct.pack] or of the writer) and that
    schema's writer is left cached, so that
    [encode_record_with_schema_id] with the returned identifier then
    encodes with the same schema and no registry call. *)
Theorem encode_record_with_schema_then_by_id
    self (schema : Schema) record is_key :
  let registered := encode_record_with_schema schema record is_key self in
  (schema_namespace schema = None ->
     registered =
       (Raise (TypeError
                 "unsupported operand type(s) for +: 'NoneType' and 'str'"),
        self))
  /\ (forall namespace,
        schema_namespace schema = Some namespace ->
        calls (snd registered) =
          CallRegister (subject_of namespace schema) :: calls self)
  /\ (forall namespace id rc',
        schema_namespace schema = Some namespace ->
        register (registry_client self) (subject_of namespace schema)
          schema = (Ok (Some id), rc') ->
        id <> 0 ->
        fst registered = envelope id (DatumWriter_write schema record)
        /\ forall record' is_key',
             encode_record_with_schema_id id record' is_key'
               (snd registered) =
               (envelope id (DatumWriter_write schema record'),
                snd registered)).
Proof.
  intros registered. subst registered. split; [|split].
  - intros Hns. unfold encode_record_with_schema. rewrite Hns. reflexivity.
  - intros namespace Hns.
    destruct (register (registry_client self)
                (subject_of namespace schema) schema) as [r rc'] eqn:Hreg.
    rewrite (encode_record_with_schema_cases _ _ _ _ _ _ _ Hns Hreg).
    destruct r as [[id|]|e]; try reflexivity.
    destruct (id =? 0); reflexivity.
  - intros namespace id rc' Hns Hreg Hid.
    rewrite (encode_record_with_schema_cases _ _ _ _ _ _ _ Hns Hreg).
    apply Z.eqb_neq in Hid. rewrite Hid. cbn [fst snd].
    split; [reflexivity|].
    intros record' is_key'.
    rewrite (encode_cached _ _ _ _ schema); [reflexivity|].
    apply lookup_insert_eq.
Qed.

End Further.

Module FurtherExamples.

Import Mock.

#[local] Existing Instance fast.

(** X2 at [alice_message]. *)
Lemma decode_looks_up_the_encoded_id_witness :
  fst (encode_record_with_schema_id 7 alice false fresh) = Ok alice_message
  /\ (5 < length alice_message)%nat
  /\ id_to_decoder_func fresh !! 7 = None
  /\ exists found trial,
       calls (snd (decode_message (Some alice_message) true fresh)) =
         (trial ++ CallGetById DecodePath 7 found :: calls fresh)%list.
Proof.
  assert (H1 : fst (encode_record_with_schema_id 7 alice false fresh) =
               Ok alice_message) by reflexivity.
  assert (H2 : (5 < length alice_message)%nat) by (cbn; lia).
  assert (H3 : id_to_decoder_func fresh !! 7 = None) by reflexivity.
  split; [exact H1 | split; [exact H2 | split; [exact H3|]]].
  exact (decode_looks_up_the_encoded_id fresh fresh 7 alice false true
           alice_message H1 H2 H3).
Defined.

(** X4: identifier 7 first resolved for a key, for which [fresh] has no
    reader schema, then asked for as a value. *)
Lemma decoder_func_is_shared_by_keys_and_values_witness :
  let payload := mkBytesIO alice_message 5 in
  id_to_decoder_func fresh !! 7 = None
  /\ get_by_id (registry_client fresh) 7 = (Ok (Some user_schema), registry7)
  /\ exists f self',
       _get_decoder_func 7 true (fresh, payload) = (Ok f, (self', payload))
       /\ bound_with f user_schema None
       /\ _get_decoder_func 7 false (self', payload) =
            (Ok f, (self', payload)).
Proof.
  intros payload.
  assert (H1 : id_to_decoder_func fresh !! 7 = None) by reflexivity.
  assert (H2 : get_by_id (registry_client fresh) 7 =
               (Ok (Some user_schema), registry7)) by reflexivity.
  split; [exact H1 | split; [exact H2|]].
  destruct (decoder_func_is_shared_by_keys_and_values fresh payload 7 true
              user_schema registry7 H1 H2) as (f & self' & E & Hb & Hagain).
  exists f, self'. split; [exact E|]. split; [exact Hb|].
  apply Hagain.
Defined.

(** X5 at the identifier 2^32. *)
Lemma encode_refuses_id_out_of_range_witness :
  let self := put_writer (2 ^ 32) user_schema fresh in
  writes_with self (2 ^ 32) user_schema
  /\ ~ (0 <= 2 ^ 32 < 2 ^ 32)
  /\ fst (encode_record_with_schema_id (2 ^ 32) alice false self) =
       Raise (StructError "'I' format requires 0 <= number <= 4294967295").
Proof.
  intros self.
  assert (H1 : writes_with self (2 ^ 32) user_schema) by reflexivity.
  assert (H2 : ~ (0 <= 2 ^ 32 < 2 ^ 32)) by lia.
  split; [exact H1 | split; [exact H2|]].
  destruct (encode_refuses_id_out_of_range self (2 ^ 32) alice false
              user_schema H1 H2) as [(msg & E & Hmsg) _].
  rewrite E, Hmsg; [reflexivity | lia].
Defined.

(** X6 at a record whose name is a boolean. *)
Lemma encode_passes_on_writer_error_witness :
  let record := [("name", VBool true)] in
  writes_with fresh 7 user_schema
  /\ 0 <= 7 < 2 ^ 32
  /\ DatumWriter_write user_schema record =
       Raise (OtherError "AvroTypeException")
  /\ fst (encode_record_with_schema_id 7 record false fresh) =
       Raise (OtherError "AvroTypeException").
Proof.
  intros record.
  assert (H1 : writes_with fresh 7 user_schema) by reflexivity.
  assert (H2 : 0 <= 7 < 2 ^ 32) by lia.
  assert (H3 : DatumWriter_write user_schema record =
               Raise (OtherError "AvroTypeException")) by reflexivity.
  split; [exact H1 | split; [exact H2 | split; [exact H3|]]].
  exact (proj1 (encode_passes_on_writer_error fresh 7 record false
                  user_schema _ H1 H2 H3)).
Defined.

(** X7 during a registry outage. *)
Lemma encode_lookup_errors_witness :
  let down := mkRegistry (reg_schemas registry7) 11 1 in
  let self := @init fast down None None in
  let r := Raise (ClientError "503 Service Unavailable") in
  id_to_writers self !! 7 = None
  /\ get_by_id (registry_client self) 7 = (r, registry7)
  /\ fst (encode_record_with_schema_id 7 alice true self) =
       Raise (KeySerializerError
                (format_exception (ClientError "503 Service Unavailable"))).
Proof.
  intros down self r.
  assert (H1 : id_to_writers self !! 7 = None) by reflexivity.
  assert (H2 : get_by_id (registry_client self) 7 = (r, registry7))
    by reflexivity.
  split; [exact H1 | split; [exact H2|]].
  destruct (encode_lookup_errors self 7 alice true r registry7 H1 H2)
    as (_ & Hclient & _).
  exact (Hclient "503 Service Unavailable" eq_refl).
Defined.

(** X8 for an identifier the registry does not hold. *)
Lemma decode_lookup_errors_witness :
  let schema_id := big_endian [x00; x00; x00; x63] in
  id_to_decoder_func fresh !! schema_id = None
  /\ get_by_id (registry_client fresh) schema_id = (Ok None, registry7)
  /\ fst (decode_message (Some [x00; x00; x00; x00; x63; x0a; x61]) false
            fresh) =
       Raise (SerializerError "unable to fetch schema with id 99").
Proof.
  intros schema_id.
  assert (H1 : id_to_decoder_func fresh !! schema_id = None) by reflexivity.
  assert (H2 : get_by_id (registry_client fresh) schema_id =
               (Ok None, registry7)) by reflexivity.
  split; [exact H1 | split; [exact H2|]].
  destruct (decode_lookup_errors fresh false x00 x00 x00 x63 x0a [x61]
              (Ok None) registry7 H1 H2) as (Hnone & _).
  exact (Hnone eq_refl).
Defined.

(** X9 at a message for 7 whose body is cut short. *)
Lemma decoder_func_cached_before_payload_is_read_witness :
  let message := [x00; x00; x00; x00; x07; x0a; x61] in
  let schema_id := big_endian [x00; x00; x00; x07] in
  id_to_decoder_func fresh !! schema_id = None
  /\ get_by_id (registry_client fresh) schema_id =
       (Ok (Some user_schema), registry7)
  /\ is_Ok (fst (decode_message (Some message) false fresh)) = false
  /\ is_Some (id_to_decoder_func
                (snd (decode_message (Some message) false fresh))
                !! schema_id).
Proof.
  intros message schema_id.
  assert (H1 : id_to_decoder_func fresh !! schema_id = None) by reflexivity.
  assert (H2 : get_by_id (registry_client fresh) schema_id =
               (Ok (Some user_schema), registry7)) by reflexivity.
  split; [exact H1 | split; [exact H2 | split; [reflexivity|]]].
  exact (proj1 (decoder_func_cached_before_payload_is_read fresh false
                  x00 x00 x00 x07 x0a [x61] user_schema registry7 H1 H2)).
Defined.

(** X10 with the slow decoder of [user_schema] cached for 7. *)
Lemma decode_cached_reads_from_offset_5_witness :
  let f := SlowDecoder user_schema None in
  let self := put_decoder_func 7 f fresh in
  id_to_decoder_func self !! big_endian [x00; x00; x00; x07] = Some f
  /\ decode_message (Some alice_message) false self =
       (Ok (Some alice), self).
Proof.
  intros f self.
  assert (H1 : id_to_decoder_func self !! big_endian [x00; x00; x00; x07] =
               Some f) by reflexivity.
  split; [exact H1|].
  exact (decode_cached_reads_from_offset_5 self false x00 x00 x00 x07 x0a
           [x61; x6c; x69; x63; x65] f H1).
Defined.

(** X14 on [registry7], which holds [user_schema] as 7, and for a schema
    without namespace. *)
Lemma encode_record_with_schema_then_by_id_witness :
  let nameless := mkSchema None "User" "" [("name", TString)] in
  schema_namespace user_schema = Some "test"
  /\ register (registry_client fresh) (subject_of "test" user_schema)
       user_schema = (Ok (Some 7), registry7)
  /\ 7 <> 0
  /\ fst (encode_record_with_schema user_schema alice false fresh) =
       Ok alice_message
  /\ calls (snd (encode_record_with_schema user_schema alice false fresh)) =
       [CallRegister "test.User"]
  /\ calls (snd (encode_record_with_schema nameless alice false fresh)) = [].
Proof.
  intros nameless.
  assert (H1 : schema_namespace user_schema = Some "test") by reflexivity.
  assert (H2 : register (registry_client fresh)
                 (subject_of "test" user_schema) user_schema =
               (Ok (Some 7), registry7)) by reflexivity.
  assert (H3 : 7 <> 0) by lia.
  assert (H4 : schema_namespace nameless = None) by reflexivity.
  split; [exact H1 | split; [exact H2 | split; [exact H3|]]].
  destruct (encode_record_with_schema_then_by_id fresh user_schema alice
              false) as (_ & Hcalls & Hreg).
  destruct (Hreg "test" 7 registry7 H1 H2 H3) as (Hout & _).
  split; [exact Hout|]. split; [exact (Hcalls "test" H1)|].
  destruct (encode_record_with_schema_then_by_id fresh nameless alice
              false) as (Hnone & _).
  rewrite (Hnone H4). reflexivity.
Defined.

(** On a registry that numbers its first schema 0, registration does not
    refresh the writer cached for 0: the call raises before it caches. *)
Example writer_of_zero_is_kept :
  let self := put_writer 0 ping_schema (@init fast registry0 None None) in
  let later :=
    step self (EncodeRecordWithSchema user_schema alice false) in
  fst (register (registry_client self) (subject_of "test" user_schema)
         user_schema) = Ok (Some 0)
  /\ id_to_writers later !! 0 = Some ping_schema.
Proof. split; reflexivity. Qed.

End FurtherExamples.

(* ===================================================================== *)
(* Properties of the example client                                       *)
(* ===================================================================== *)

Module CliProperties.

Import Cli.

Lemma build_has_no_group_id (self : ParserOpts) :
  _build self !! "group.id" = None.
Proof.
  unfold _build. destruct (String.eqb (userinfo self) "");
    repeat (rewrite lookup_insert_ne by discriminate); apply lookup_empty.
Qed.

(** X15.  The consumer configuration is the producer configuration with
    [group.id] added: every other key has the same entry in both.  Both
    always carry the broker list and the registry URL, and they carry the
    basic-auth entries exactly when [userinfo] is not empty. *)
Theorem consumer_conf_extends_producer_conf (self : ParserOpts) :
  consumer_conf self !! "group.id" = Some (group self)
  /\ producer_conf self !! "group.id" = None
  /\ (forall key, key <> "group.id" ->
        consumer_conf self !! key = producer_conf self !! key)
  /\ producer_conf self !! "bootstrap.servers" =
       Some (bootstrap_servers self)
  /\ producer_conf self !! "schema.registry.url" = Some (schema_registry self)
  /\ (userinfo self = "" ->
        producer_conf self !! "schema.registry.basic.auth.user.info" = None
        /\ producer_conf self
             !! "schema.registry.basic.auth.credentials.source" = None)
  /\ (userinfo self <> "" ->
        producer_conf self !! "schema.registry.basic.auth.user.info" =
          Some (userinfo self)
        /\ producer_conf self
             !! "schema.registry.basic.auth.credentials.source" =
             Some "USER_INFO").
Proof.
  unfold consumer_conf, producer_conf.
  split; [|split; [|split; [|split; [|split; [|split]]]]].
  - rewrite lookup_union_r by apply build_has_no_group_id.
    apply lookup_insert_eq.
  - apply build_has_no_group_id.
  - intros key Hkey.
    destruct (_build self !! key) as [v|] eqn:E.
    + now apply lookup_union_Some_l.
    + rewrite lookup_union_r by exact E.
      rewrite lookup_insert_ne by congruence. apply lookup_empty.
  - unfold _build. destruct (String.eqb (userinfo self) "");
      repeat (rewrite lookup_insert_ne by discriminate);
      apply lookup_insert_eq.
  - unfold _build. destruct (String.eqb (userinfo self) "");
      repeat (rewrite lookup_insert_ne by discriminate);
      apply lookup_insert_eq.
  - intros Hu. unfold _build. rewrite Hu. cbn [String.eqb].
    split; repeat (rewrite lookup_insert_ne by discriminate);
      apply lookup_empty.
  - intros Hu. unfold _build.
    destruct (String.eqb_spec (userinfo self) "") as [E|_]; [contradiction|].
    split; [apply lookup_insert_eq|].
    rewrite lookup_insert_ne by discriminate. apply lookup_insert_eq.
Qed.

(** X16.  [on_delivery] returns 1 exactly when there is no error and a
    message, returns 0 exactly when there is an error, and with neither
    an error nor a message it raises; whenever it returns it has printed
    one line. *)
Theorem on_delivery_reports (err : option string) (msg : option Message) :
  (fst (on_delivery err msg) = Ok 1 <-> err = None /\ msg <> None)
  /\ (fst (on_delivery err msg) = Ok 0 <-> err <> None)
  /\ (is_Ok (fst (on_delivery err msg)) = false <->
        err = None /\ msg = None)
  /\ (is_Ok (fst (on_delivery err msg)) = true ->
        length (snd (on_delivery err msg)) = 1%nat).
Proof.
  destruct err as [e|], msg as [m|]; cbn;
    repeat split; try congruence; try discriminate;
    try (intros [? ?]; congruence); try (intros ?; congruence).
Qed.

(** As long as [poll] gives messages without error and [None], the loop
    goes on, printing the values in the order they came. *)
Lemma consume_loop_app (eof : Z) (quiet rest : list Polled)
    (out : list string) :
  forallb (fun p => negb (stops p)) quiet = true ->
  consume_loop eof (quiet ++ rest) out =
    consume_loop eof rest (out ++ flat_map printed_value quiet).
Proof.
  revert out. induction quiet as [|p quiet IH]; intros out Hq.
  - cbn. now rewrite app_nil_r.
  - cbn [forallb] in Hq. apply andb_prop in Hq as [Hp Hq].
    destruct p as [e| |[[code text]|] value]; try discriminate; cbn.
    + apply IH. exact Hq.
    + rewrite IH by exact Hq. now rewrite <- app_assoc.
Qed.

(** X17.  The consume loop never ends on its own: while every poll gives
    [None] or a message without error it keeps polling, and what it has
    printed is the values of those messages, in order, the polls that
    gave [None] leaving no trace. *)
Theorem consume_loop_polls_on (eof : Z) (polls : list Polled)
    (out : list string) :
  forallb (fun p => negb (stops p)) polls = true ->
  consume_loop eof polls out =
    (Polling, (out ++ flat_map printed_value polls)%list).
Proof.
  intros Hq.
  rewrite <- (app_nil_r polls) at 1.
  rewrite (consume_loop_app eof polls [] out Hq). reflexivity.
Qed.

(** X18.  The loop ends at the first poll that raises or gives a message
    with an error, and nothing after it is polled or printed.  A
    [SerializerError] is reported and the consumer closed; any other
    exception leaves [consume] without [c.close()]; the end of the
    partition closes silently, any other error is printed first. *)
Theorem consume_loop_stops_at_first (eof : Z) (quiet later : list Polled)
    (p : Polled) (out : list string) :
  forallb (fun p => negb (stops p)) quiet = true ->
  stops p = true ->
  let seen := (out ++ flat_map printed_value quiet)%list in
  consume_loop eof (quiet ++ p :: later) out =
    match p with
    | PollRaises e =>
        if is_SerializerError e
        then (Closed,
              (seen ++ ["Message deserialization failed "
                        +:+ str_of_exception e])%list)
        else (Escaped e, seen)
    | PollMessage (Some (code, text)) _ =>
        if code =? eof then (Closed, seen) else (Closed, (seen ++ [text])%list)
    | _ => (Polling, seen)
    end
  /\ fst (consume_loop eof (quiet ++ p :: later) out) <> Polling.
Proof.
  intros Hq Hp seen. subst seen.
  rewrite (consume_loop_app eof quiet (p :: later) out Hq).
  destruct p as [e| |[[code text]|] value]; try discriminate; cbn.
  - destruct (is_SerializerError e); split; [reflexivity|discriminate
                                            |reflexivity|discriminate].
  - destruct (code =? eof); split; [reflexivity|discriminate
                                   |reflexivity|discriminate].
Qed.

(* --------------------------------------------------------------------- *)
(* User.prompt                                                            *)
(* --------------------------------------------------------------------- *)

Lemma input_consumes (text : string) (tty : Tty) :
  exists typed,
    stdin tty = (typed ++ stdin (snd (input text tty)))%list.
Proof.
  unfold input. destruct (stdin tty) as [|line rest].
  - exists []. reflexivity.
  - exists [line]. reflexivity.
Qed.

Lemma prompt_number_keeps (int_of_str : string -> option Z)
    (retry : gmap string PyValue -> Tty ->
             PromptEnd * gmap string PyValue * Tty)
    (self : gmap string PyValue) (tty : Tty) (name : string) :
  (forall self' tty',
     (forall key,
        key <> "name" -> key <> "favorite_number" ->
        key <> "favorite_color" ->
        snd (fst (retry self' tty')) !! key = self' !! key)
     /\ (fst (fst (retry self' tty')) = Returned ->
           exists name n,
             snd (fst (retry self' tty')) !! "name" = Some (PyStr name)
             /\ snd (fst (retry self' tty')) !! "favorite_number" =
                  Some (PyInt n))
     /\ exists typed,
          stdin tty' = (typed ++ stdin (snd (retry self' tty')))%list) ->
  self !! "name" = Some (PyStr name) ->
  let ended := prompt_number int_of_str retry self tty in
  (forall key,
     key <> "name" -> key <> "favorite_number" ->
     key <> "favorite_color" ->
     snd (fst ended) !! key = self !! key)
  /\ (fst (fst ended) = Returned ->
        exists name n,
          snd (fst ended) !! "name" = Some (PyStr name)
          /\ snd (fst ended) !! "favorite_number" = Some (PyInt n))
  /\ exists typed, stdin tty = (typed ++ stdin (snd ended))%list.
Proof.
  intros Hretry Hname ended. subst ended. unfold prompt_number.
  destruct (input_consumes "Enter favorite number:" tty) as [typed Ht].
  destruct (input "Enter favorite number:" tty) as [[num|] tty'];
    cbn [snd] in Ht.
  2:{ cbn. split; [auto|]. split; [discriminate|eauto]. }
  destruct (if String.eqb num "" then Some 0 else int_of_str num) as [n|].
  - cbn. split; [|split; [|eauto]].
    + intros key H1 H2 H3. now rewrite lookup_insert_ne by congruence.
    + intros _. exists name, n.
      rewrite lookup_insert_ne by discriminate.
      rewrite lookup_insert_eq. auto.
  - destruct (Hretry self
                (print "invalid integer type, discarding record..." tty'))
      as (Hk & Hr & typed' & Ht').
    split; [exact Hk|]. split; [exact Hr|].
    cbn [print stdin] in Ht'. exists (typed ++ typed')%list.
    rewrite Ht, Ht'. now rewrite app_assoc.
Qed.

Lemma prompt_color_keeps
    (after_number : PromptEnd * gmap string PyValue * Tty) :
  let ended := prompt_color after_number in
  (forall key,
     key <> "favorite_color" ->
     snd (fst ended) !! key = snd (fst after_number) !! key)
  /\ (fst (fst ended) = Returned ->
        fst (fst after_number) = Returned
        /\ exists color,
             snd (fst ended) !! "favorite_color" = Some (PyStr color))
  /\ exists typed,
       stdin (snd after_number) = (typed ++ stdin (snd ended))%list.
Proof.
  destruct after_number as [[[|e] self] tty]; cbn.
  2:{ split; [auto|]. split; [discriminate|]. exists []. reflexivity. }
  destruct (input_consumes "Enter favorite color:" tty) as [typed Ht].
  destruct (input "Enter favorite color:" tty) as [[color|] tty'];
    cbn [snd] in Ht; cbn.
  - split; [|split; [|eauto]].
    + intros key Hkey. now rewrite lookup_insert_ne by congruence.
    + intros _. split; [reflexivity|]. exists color.
      apply lookup_insert_eq.
  - split; [auto|]. split; [discriminate|eauto].
Qed.

(** X19.  [prompt] writes the three keys of the record and no other.
    When it returns, the dict holds a string name, an integer favourite
    number and a string favourite colour, and the lines it read are a
    prefix of what was typed. *)
Theorem prompt_fills_the_record (int_of_str : string -> option Z)
    (frames : nat) :
  forall (self : gmap string PyValue) (tty : Tty),
    (forall key,
       key <> "name" -> key <> "favorite_number" ->
       key <> "favorite_color" ->
       snd (fst (prompt int_of_str frames self tty)) !! key = self !! key)
    /\ (fst (fst (prompt int_of_str frames self tty)) = Returned ->
          exists name n color,
            snd (fst (prompt int_of_str frames self tty)) !! "name" =
              Some (PyStr name)
            /\ snd (fst (prompt int_of_str frames self tty))
                 !! "favorite_number" = Some (PyInt n)
            /\ snd (fst (prompt int_of_str frames self tty))
                 !! "favorite_color" = Some (PyStr color))
    /\ exists typed,
         stdin tty =
           (typed ++ stdin (snd (prompt int_of_str frames self tty)))%list.
Proof.
  induction frames as [|frames IH]; intros self tty.
  - cbn. split; [auto|]. split; [discriminate|]. exists []. reflexivity.
  - cbn [prompt].
    destruct (input_consumes "Enter name:" tty) as [typed1 Ht1].
    destruct (input "Enter name:" tty) as [[name|] tty1]; cbn [snd] in Ht1.
    2:{ cbn. split; [auto|]. split; [discriminate|]. eauto. }
    assert (Hretry : forall self' tty',
      (forall key,
         key <> "name" -> key <> "favorite_number" ->
         key <> "favorite_color" ->
         snd (fst (prompt int_of_str frames self' tty')) !! key =
           self' !! key)
      /\ (fst (fst (prompt int_of_str frames self' tty')) = Returned ->
            exists name n,
              snd (fst (prompt int_of_str frames self' tty')) !! "name" =
                Some (PyStr name)
              /\ snd (fst (prompt int_of_str frames self' tty'))
                   !! "favorite_number" = Some (PyInt n))
      /\ exists typed,
           stdin tty' =
             (typed ++ stdin (snd (prompt int_of_str frames self' tty')))%list).
    { intros self' tty'. destruct (IH self' tty') as (Hk & Hr & Ht).
      split; [exact Hk|]. split; [|exact Ht].
      intros Hret. destruct (Hr Hret) as (nm & n & c & Hn & Hnum & _).
      eauto. }
    destruct (prompt_number_keeps int_of_str (prompt int_of_str frames)
                (<["name" := PyStr name]> self) tty1 name Hretry
                (lookup_insert_eq _ _ _))
      as (Hk2 & Hr2 & typed2 & Ht2).
    destruct (prompt_color_keeps
                (prompt_number int_of_str (prompt int_of_str frames)
                   (<["name" := PyStr name]> self) tty1))
      as (Hk3 & Hr3 & typed3 & Ht3).
    split; [|split].
    + intros key H1 H2 H3. rewrite (Hk3 key H3), (Hk2 key H1 H2 H3).
      now rewrite lookup_insert_ne by congruence.
    + intros Hret. destruct (Hr3 Hret) as (Hret2 & color & Hcolor).
      destruct (Hr2 Hret2) as (nm & n & Hn & Hnum).
      exists nm, n, color.
      rewrite !Hk3 by discriminate. auto.
    + exists (typed1 ++ typed2 ++ typed3)%list.
      rewrite Ht1, Ht2, Ht3. now rewrite !app_assoc.
Qed.

(** X20.  After an answer that is not an integer the record is not
    discarded, whatever the message says: [prompt] asks again for the
    name, the number and the colour, and then asks for the colour once
    more.  The dict ends with the second name, the second number and the
    last colour typed; six lines are read. *)
Theorem prompt_after_invalid_number (int_of_str : string -> option Z)
    (frames : nat) (self : gmap string PyValue)
    (name1 bad name2 num2 color2 color3 : string) (n : Z)
    (rest out : list string) :
  bad <> "" -> int_of_str bad = None ->
  num2 <> "" -> int_of_str num2 = Some n ->
  let typed := name1 :: bad :: name2 :: num2 :: color2 :: color3 :: rest in
  let ended := prompt int_of_str (S (S frames)) self (mkTty typed out) in
  fst (fst ended) = Returned
  /\ snd (fst ended) !! "name" = Some (PyStr name2)
  /\ snd (fst ended) !! "favorite_number" = Some (PyInt n)
  /\ snd (fst ended) !! "favorite_color" = Some (PyStr color3)
  /\ snd ended =
       mkTty rest
         (out ++ ["Enter name:"; "Enter favorite number:";
                  "invalid integer type, discarding record...";
                  "Enter name:"; "Enter favorite number:";
                  "Enter favorite color:"; "Enter favorite color:"])%list.
Proof.
  intros Hbad Hbadint Hnum Hnumint typed ended. subst typed ended.
  apply String.eqb_neq in Hbad. apply String.eqb_neq in Hnum.
  cbn [prompt prompt_number prompt_color input print stdin stdout].
  rewrite Hbad, Hbadint.
  cbn [prompt prompt_number prompt_color input print stdin stdout].
  rewrite Hnum, Hnumint.
  cbn [prompt_color input print stdin stdout fst snd].
  split; [reflexivity|].
  split; [now rewrite !lookup_insert_ne by discriminate;
          rewrite lookup_insert_eq|].
  split; [now rewrite !lookup_insert_ne by discriminate;
          rewrite lookup_insert_eq|].
  split; [now rewrite lookup_insert_eq|].
  f_equal. now rewrite <- !app_assoc.
Qed.

(** A stand-in for [int] that reads one digit. *)
Example prompt_after_invalid_number_witness :
  let int_of_str := fun s : string =>
    if String.eqb s "7" then Some 7 else None in
  let typed := ["ann"; "seven"; "bob"; "7"; "red"; "blue"] in
  "seven" <> "" /\ int_of_str "seven" = None
  /\ "7" <> "" /\ int_of_str "7" = Some 7
  /\ snd (fst (prompt int_of_str 2 ∅ (mkTty typed []))) !! "name" =
       Some (PyStr "bob")
  /\ snd (fst (prompt int_of_str 2 ∅ (mkTty typed [])))
       !! "favorite_color" = Some (PyStr "blue").
Proof.
  intros int_of_str typed.
  assert (H1 : "seven" <> "") by discriminate.
  assert (H2 : int_of_str "seven" = None) by reflexivity.
  assert (H3 : "7" <> "") by discriminate.
  assert (H4 : int_of_str "7" = Some 7) by reflexivity.
  split; [exact H1 | split; [exact H2 | split; [exact H3
    | split; [exact H4|]]]].
  destruct (prompt_after_invalid_number int_of_str 0 ∅
              "ann" "seven" "bob" "7" "red" "blue" 7 [] [] H1 H2 H3 H4)
    as (_ & Hname & _ & Hcolor & _).
  split; [exact Hname | exact Hcolor].
Defined.

(** X17 on two messages around an empty poll. *)
Example consume_loop_polls_on_witness :
  let polls := [PollMessage None "a"; PollNone; PollMessage None "b"] in
  forallb (fun p => negb (stops p)) polls = true
  /\ consume_loop (-191) polls ["start"] = (Polling, ["start"; "a"; "b"]).
Proof.
  intros polls.
  assert (H : forallb (fun p => negb (stops p)) polls = true)
    by reflexivity.
  split; [exact H|].
  exact (consume_loop_polls_on (-191) polls ["start"] H).
Defined.

(** X18 on a message, the end of the partition and a message that is
    never polled. *)
Example consume_loop_stops_at_first_witness :
  let quiet := [PollMessage None "a"] in
  let p := PollMessage (Some (-191, "Broker: No more messages")) "" in
  forallb (fun p => negb (stops p)) quiet = true
  /\ stops p = true
  /\ consume_loop (-191) (quiet ++ p :: [PollMessage None "b"]) [] =
       (Closed, ["a"]).
Proof.
  intros quiet p.
  assert (H1 : forallb (fun p => negb (stops p)) quiet = true)
    by reflexivity.
  assert (H2 : stops p = true) by reflexivity.
  split; [exact H1 | split; [exact H2|]].
  exact (proj1 (consume_loop_stops_at_first (-191) quiet
                  [PollMessage None "b"] p [] H1 H2)).
Defined.

End CliProperties.
